(** * LIT client modules: datapoint editor and global settings

    A shallow embedding of
      - [lit_nlp/client/modules/datapoint_editor_module.ts]
      - [lit_nlp/client/modules/global_settings.ts]
    together with the part of the JavaScript string and array library the
    two modules call ([String.prototype.split], [Array.prototype.join],
    [String.prototype.includes]).

    JavaScript strings are modelled as [string] (a sequence of code units),
    plain objects used as dictionaries as [gmap string _], the insertion
    ordered [Map] of the settings dialog as an association list. *)

From Stdlib Require Import Ascii PrimFloat.
From stdpp Require Import base option list gmap strings pretty.

(** ** JavaScript strings and arrays *)

Module JS.

(** [s.substring(0, n)] *)
Fixpoint substring_to (n : nat) (s : string) : string :=
  match n, s with
  | S n', String c s' => String c (substring_to n' s')
  | _, _ => ""
  end.

(** [s.substring(n)] *)
Fixpoint substring_from (n : nat) (s : string) : string :=
  match n, s with
  | S n', String _ s' => substring_from n' s'
  | _, _ => s
  end.

(** The code units of [r] occur in [s] at index 0. *)
Fixpoint IsStringPrefix (r s : string) : bool :=
  match r, s with
  | "", _ => true
  | String a r', String b s' => Ascii.eqb a b && IsStringPrefix r' s'
  | String _ _, "" => false
  end.

(** [StringIndexOf(s, r, 0)]: the smallest index at which [r] occurs in
    [s]; [None] stands for not-found. *)
Fixpoint StringIndexOf (s r : string) : option nat :=
  if IsStringPrefix r s then Some 0
  else match s with
       | "" => None
       | String _ s' => S <$> StringIndexOf s' r
       end.

(** [s.includes(r)] *)
Definition String_includes (s r : string) : bool :=
  match StringIndexOf s r with
  | Some _ => true
  | None => false
  end.

(** The loop of [String.prototype.split] for a non-empty separator: cut at
    the next occurrence of [r], continue behind it. Every round consumes at
    least one code unit, so [String.length s] rounds always suffice. *)
Fixpoint split_loop (fuel : nat) (s r : string) : list string :=
  match StringIndexOf s r with
  | None => [s]
  | Some j =>
      match fuel with
      | 0 => [s]
      | S fuel' =>
          substring_to j s
            :: split_loop fuel' (substring_from (j + String.length r) s) r
      end
  end.

(** The code units of a string, each as a string of length one. *)
Fixpoint code_units (s : string) : list string :=
  match s with
  | "" => []
  | String c s' => String c "" :: code_units s'
  end.

(** [s.split(r)] with a string separator and no limit. *)
Definition String_split (s r : string) : list string :=
  match r with
  | "" => code_units s
  | _ => split_loop (String.length s) s r
  end.

(** The loop of [Array.prototype.join]: [acc] is the string built so far
    and [k] the index of the next element. *)
Fixpoint join_loop (sep acc : string) (k : nat) (elems : list string) : string :=
  match elems with
  | [] => acc
  | e :: rest =>
      join_loop sep ((match k with 0 => acc | _ => acc +:+ sep end) +:+ e)
        (S k) rest
  end.

(** [A.join(sep)] on an array of strings. *)
Definition Array_join (A : list string) (sep : string) : string :=
  join_loop sep "" 0 A.

(** A separator has a border when one of its proper non-empty prefixes is
    also a suffix; [unbordered] checks that there is none. *)
Definition unbordered (r : string) : bool :=
  forallb
    (fun k => negb (String.eqb (substring_to k r)
                               (substring_from (String.length r - k) r)))
    (seq 1 (String.length r - 1)).

End JS.

(** ** Values, field specifications and records ([lib/types]) *)

Module Types.

(** The values a record or a draft holds under a field name. An array of
    label objects ([SpanLabel[]], [EdgeLabel[]]) is kept by its length: the
    two modules never look inside the objects. *)
Inductive Value :=
| VUndefined
| VNull
| VBoolean (b : bool)
| VNumber (x : float)
| VString (s : string)
| VStrings (l : list string)
| VObjects (n : nat).

(** JavaScript truthiness, as used by [value ? ... : ...]. Every array is
    truthy, also the empty one. *)
Definition truthy (v : Value) : bool :=
  match v with
  | VUndefined | VNull => false
  | VBoolean b => b
  | VNumber x => negb (PrimFloat.is_zero x || PrimFloat.is_nan x)
  | VString s => negb (bool_decide (s = ""))
  | VStrings _ | VObjects _ => true
  end.

(** [v === ''] *)
Definition strict_eq_empty_string (v : Value) : bool :=
  match v with
  | VString "" => true
  | _ => false
  end.

(** The part of a field's type descriptor the modules read. *)
Record LitType := {
  __name__ : string;
  vocab : option (list string);
  separator : option string;
}.

(** [o[key]]: reading an absent property gives [undefined]. *)
Definition get (o : gmap string Value) (key : string) : Value :=
  default VUndefined (o !! key).

(** [o[key] = v] on an object that was made by [{}] and has only been
    assigned to since. Every name but [__proto__] becomes, or stays, an own
    property. [__proto__] is the accessor every plain object inherits from
    [Object.prototype]: assigning to it stores no property (it replaces the
    prototype when [v] is an object or [null], and does nothing else). *)
Definition plain_object_set {V} (o : gmap string V) (key : string) (v : V)
  : gmap string V :=
  if bool_decide (key = "__proto__") then o else <[key := v]> o.

(** [Object.keys(o)], in the map's own order of enumeration; none of the
    results below depends on that order. *)
Definition Object_keys {V} (o : gmap string V) : list string :=
  (map_to_list o).*1.

Record Meta := {
  source : option string;
  added : option bool;
  parentId : option string;
}.

Record IndexedInput := {
  data : gmap string Value;
  id : string;
  meta : Meta;
}.

(** The observable application state both modules read. *)
Record AppState := {
  currentDataset : string;
  currentDatasetSpec : gmap string LitType;
  currentInputData : list IndexedInput;
  currentModels : list string;
  currentModelRequiredInputSpecKeys : list string;
  compareExamplesEnabled : bool;
  layoutName : string;
  metadata_models : list string;
}.

(** Modelled from the spec: [AppState.currentInputDataKeys] lives in the
    state service, which is not part of these two modules. Section 4.2
    initialises "every field" of the current field specification from it,
    so it is the list of the specification's field names. *)
Definition currentInputDataKeys (a : AppState) : list string :=
  Object_keys (currentDatasetSpec a).

Definition set_compareExamplesEnabled (b : bool) (a : AppState) : AppState :=
  {| currentDataset := currentDataset a;
     currentDatasetSpec := currentDatasetSpec a;
     currentInputData := currentInputData a;
     currentModels := currentModels a;
     currentModelRequiredInputSpecKeys := currentModelRequiredInputSpecKeys a;
     compareExamplesEnabled := b;
     layoutName := layoutName a;
     metadata_models := metadata_models a |}.

(** What a module reads from a selection service. *)
Record SelectionService := {
  primarySelectedId : option string;
  primarySelectedInputData : option IndexedInput;
}.

Record GroupService := {
  categoricalFeatureNames : list string;
  numericalFeatureNames : list string;
}.

(** Which selection service a call goes to: the module's own
    ([this.selectionService]) or [app.getServiceArray(SelectionService)[i]]. *)
Inductive SelectionTarget :=
| ThisSelectionService
| SelectionServiceAt (i : nat).

(** Calls a handler makes on its collaborators, in program order. *)
Inductive Call :=
| IndexDatapoints (l : list IndexedInput)
| CommitNewDatapoints (l : list IndexedInput)
| SelectIds (target : SelectionTarget) (ids : list (option string))
| SaveDatapoints (l : list IndexedInput) (dataset path : string)
| LoadDatapoints (dataset path : string)
| UpdateSettings (models : list string) (dataset layoutName : string).

(** A click on a [<button ?disabled=...>] runs its handler unless the button
    is disabled. *)
Definition click {C} (disabled : bool) (handler : C → C * list Call) (c : C)
  : C * list Call :=
  if disabled then (c, []) else handler c.

End Types.

(** ** The datapoint editor ([datapoint_editor_module.ts]) *)

Module DatapointEditor.
Import Types.

(** The component's observable fields and the services it holds. *)
Record Component := {
  editedData : gmap string Value;
  datapointEdited : bool;
  appState : AppState;
  selectionService : SelectionService;
  groupService : GroupService;
}.

Definition set_draft (d : gmap string Value) (edited : bool) (c : Component)
  : Component :=
  {| editedData := d;
     datapointEdited := edited;
     appState := appState c;
     selectionService := selectionService c;
     groupService := groupService c |}.

Definition set_appState (a : AppState) (c : Component) : Component :=
  {| editedData := editedData c;
     datapointEdited := datapointEdited c;
     appState := a;
     selectionService := selectionService c;
     groupService := groupService c |}.

(** The input control [renderEntry] picks for a field. *)
Inductive InputControl :=
| CategoricalInput (catVals : list string)
| FreeformInput
| ShortformInput
| NumericInput
| TokensInput
| SparseMultilabelInput (separator : string)
| SpanLabelsNonEditable
| EdgeLabelsNonEditable.

(** The four buttons of [renderButtons], by their [disabled] attribute. *)
Record Buttons := {
  make_disabled : bool;
  compare_disabled : bool;
  reset_disabled : bool;
  clear_disabled : bool;
}.

(** The body of the [for] loop of [allRequiredInputsFilledOut], from index
    [i] on: the first required key holding [''] ends the loop with [false]. *)
Fixpoint allRequiredInputsFilledOut_loop
  (required : list string) (editedData : gmap string Value)
  (keys : list string) : bool :=
  match keys with
  | [] => true
  | key :: rest =>
      if bool_decide (key ∈ required)
         && strict_eq_empty_string (get editedData key)
      then false
      else allRequiredInputsFilledOut_loop required editedData rest
  end.

Definition allRequiredInputsFilledOut (c : Component) : bool :=
  allRequiredInputsFilledOut_loop
    (currentModelRequiredInputSpecKeys (appState c))
    (editedData c) (Object_keys (editedData c)).

Definition renderButtons (c : Component) : Buttons :=
  let makeEnabled := datapointEdited c && allRequiredInputsFilledOut c in
  let compareEnabled :=
    makeEnabled && negb (compareExamplesEnabled (appState c)) in
  let resetEnabled := datapointEdited c in
  let clearEnabled :=
    match primarySelectedInputData (selectionService c) with
    | Some _ => true
    | None => false
    end in
  {| make_disabled := negb makeEnabled;
     compare_disabled := negb compareEnabled;
     reset_disabled := negb resetEnabled;
     clear_disabled := negb clearEnabled |}.

(** The value-to-text side of [renderTokensInput] and of
    [renderSparseMultilabelInputGenerator(separator)]:
    [value ? value.join(separator) : '']. [None] stands for the [TypeError]
    of calling [join] on a value that has none. *)
Definition valueAsString (separator : string) (value : Value) : option string :=
  if truthy value then
    match value with
    | VStrings l => Some (JS.Array_join l separator)
    | VObjects n =>
        Some (JS.Array_join (replicate n "[object Object]") separator)
    | _ => None
    end
  else Some "".

(** The text-to-value side of both: [value ? value.split(separator) : []]. *)
Definition splitConverter (separator : string) (value : string) : Value :=
  if truthy (VString value)
  then VStrings (JS.String_split value separator)
  else VStrings [].

Section Collaborators.

(** [isLitSubtype(fieldSpec, typesToFind)] of [lib/utils]; a single type
    name is passed as a one-element list. *)
Variable isLitSubtype : option LitType → list string → bool.
(** [defaultValueByField(key, spec)] of [lib/types]. *)
Variable defaultValueByField : string → gmap string LitType → Value.
(** The value [await this.appState.indexDatapoints(data)] resolves to. *)
Variable indexDatapoints : list IndexedInput → list IndexedInput.
(** The unary plus of [+(value)]. *)
Variable ToNumber : string → float.
(** The component as it stands when an awaited handler has finished: the
    collaborators have carried out the calls the handler made (new records
    are indexed, committed and selected) and the reactions that follow have
    run (those of [firstUpdated] reset the draft when the selection
    changes). The argument is what the handler itself left: the component
    and its calls. The services are not part of this module. *)
Variable whenSettled : Component * list Call → Component.

Definition resetEditedData
  (selectedInputData : option (gmap string Value)) (c : Component)
  : Component :=
  let keys :=
    match selectedInputData with
    | None => currentInputDataKeys (appState c)
    | Some d => Object_keys d
    end in
  let spec := currentDatasetSpec (appState c) in
  let data :=
    foldl
      (fun data key =>
         plain_object_set data key
           (match selectedInputData with
            | None => defaultValueByField key spec
            | Some d => get d key
            end))
      ∅ keys in
  set_draft data false c.

(** [onClickNew] writes no field of the component itself: it hands the
    record to the collaborators. The pair is the component as the handler
    wrote it and the calls it made, in order; what these calls do to the
    application state, to the selection and, through the reactions, to the
    draft is the collaborators' part (see [whenSettled]). *)
Definition onClickNew (c : Component) : Component * list Call :=
  let datum :=
    {| data := editedData c;
       id := "";
       meta := {| source := Some "manual";
                  added := Some true;
                  parentId := primarySelectedId (selectionService c) |} |} in
  let data := indexDatapoints [datum] in
  (c, [IndexDatapoints [datum];
       CommitNewDatapoints data;
       SelectIds ThisSelectionService (map (λ d, Some (id d)) data)]).

(** [onClickCompare]: [parentId] is read first; the handler then resumes on
    the component as [await onClickNew()] left it, selection and draft
    included. *)
Definition onClickCompare (c : Component) : Component * list Call :=
  let parentId := primarySelectedId (selectionService c) in
  let '(c1, calls) := onClickNew c in
  let c2 := whenSettled (c1, calls) in
  (set_appState (set_compareExamplesEnabled true (appState c2)) c2,
   calls ++ [SelectIds (SelectionServiceAt 1) [parentId]]).

(** [onClickReset] reads [primarySelectedInputData!.data]; with nothing
    selected that is a property read on [null], a [TypeError] ([None]). *)
Definition onClickReset (c : Component) : option Component :=
  match primarySelectedInputData (selectionService c) with
  | Some d => Some (resetEditedData (Some (data d)) c)
  | None => None
  end.

Definition onClickClear (c : Component) : Component * list Call :=
  (c, [SelectIds ThisSelectionService []]).

(** [handleInputChange(e, converterFn)] inside [renderEntry(key, ...)]. *)
Definition handleInputChange (key : string) (converterFn : string → Value)
  (target_value : string) (c : Component) : Component :=
  set_draft (<[key := converterFn target_value]> (editedData c)) true c.

(** The [renderInput] that [renderEntry(key, ...)] ends up with. *)
Definition renderInput (key : string) (c : Component) : InputControl :=
  let fieldSpec := currentDatasetSpec (appState c) !! key in
  let vocab := fieldSpec ≫= vocab in
  match vocab with
  | Some vocab => CategoricalInput vocab
  | None =>
      if bool_decide (key ∈ categoricalFeatureNames (groupService c))
      then ShortformInput
      else if bool_decide (key ∈ numericalFeatureNames (groupService c))
      then NumericInput
      else if isLitSubtype fieldSpec ["Tokens"; "SequenceTags"]
      then TokensInput
      else if isLitSubtype fieldSpec ["SpanLabels"]
      then SpanLabelsNonEditable
      else if isLitSubtype fieldSpec ["EdgeLabels"]
      then EdgeLabelsNonEditable
      else if isLitSubtype fieldSpec ["SparseMultilabel"]
      then SparseMultilabelInput
             (default "," (fieldSpec ≫= Types.separator))
      else FreeformInput
  end.

(** The converter each control hands to [handleInputChange]; the two
    non-editable renderings register no input handler. *)
Definition converterFn (r : InputControl) : option (string → Value) :=
  match r with
  | CategoricalInput _ | FreeformInput | ShortformInput => Some VString
  | NumericInput => Some (λ value, VNumber (ToNumber value))
  | TokensInput => Some (splitConverter " ")
  | SparseMultilabelInput separator => Some (splitConverter separator)
  | SpanLabelsNonEditable | EdgeLabelsNonEditable => None
  end.

End Collaborators.

(** *** The dispatch policy as section 4.1 words it *)

Inductive Strategy :=
| ClosedChoiceSelector
| SingleLineFreeText
| SingleLineNumeric
| TokenSequenceControl
| SpanLabelsReadOnly
| EdgeLabelsReadOnly
| SparseMultilabelControl
| MultiLineFreeText.

(** The attributes of a field the policy looks at. *)
Record Attributes := {
  has_enumeration : bool;
  is_categorical_feature : bool;
  is_numeric_feature : bool;
  kind_token_sequence : bool;
  kind_span_labels : bool;
  kind_edge_labels : bool;
  kind_sparse_multilabel : bool;
}.

(** The rules in the order of section 4.1. *)
Definition dispatch_policy : list ((Attributes → bool) * Strategy) :=
  [ (has_enumeration, ClosedChoiceSelector);
    (is_categorical_feature, SingleLineFreeText);
    (is_numeric_feature, SingleLineNumeric);
    (kind_token_sequence, TokenSequenceControl);
    (kind_span_labels, SpanLabelsReadOnly);
    (kind_edge_labels, EdgeLabelsReadOnly);
    (kind_sparse_multilabel, SparseMultilabelControl) ].

(** Evaluated in order, first match wins, free text by default. *)
Fixpoint first_match (rules : list ((Attributes → bool) * Strategy))
  (a : Attributes) : Strategy :=
  match rules with
  | [] => MultiLineFreeText
  | (guard, s) :: rest => if guard a then s else first_match rest a
  end.

Definition strategy_of (r : InputControl) : Strategy :=
  match r with
  | CategoricalInput _ => ClosedChoiceSelector
  | ShortformInput => SingleLineFreeText
  | NumericInput => SingleLineNumeric
  | TokensInput => TokenSequenceControl
  | SpanLabelsNonEditable => SpanLabelsReadOnly
  | EdgeLabelsNonEditable => EdgeLabelsReadOnly
  | SparseMultilabelInput _ => SparseMultilabelControl
  | FreeformInput => MultiLineFreeText
  end.

(** The attributes of field [key] in the state of component [c]. *)
Definition attributes_of (isLitSubtype : option LitType → list string → bool)
  (key : string) (c : Component) : Attributes :=
  let fieldSpec := currentDatasetSpec (appState c) !! key in
  {| has_enumeration := bool_decide (is_Some (fieldSpec ≫= vocab));
     is_categorical_feature :=
       bool_decide (key ∈ categoricalFeatureNames (groupService c));
     is_numeric_feature :=
       bool_decide (key ∈ numericalFeatureNames (groupService c));
     kind_token_sequence := isLitSubtype fieldSpec ["Tokens"; "SequenceTags"];
     kind_span_labels := isLitSubtype fieldSpec ["SpanLabels"];
     kind_edge_labels := isLitSubtype fieldSpec ["EdgeLabels"];
     kind_sparse_multilabel := isLitSubtype fieldSpec ["SparseMultilabel"] |}.

End DatapointEditor.

(** ** The settings dialog ([global_settings.ts]) *)

Module GlobalSettings.
Import Types.

Inductive TabName := Models | Dataset | Layout.

Record Component := {
  isOpen : bool;
  appState : AppState;
  selectedDataset : string;
  selectedLayout : string;
  modelCheckboxValues : list (string * bool);
  selectedTab : TabName;
  pathForDatapoints : string;
  datapointsStatus : string;
}.

(** [Map.prototype.set]: an existing key keeps its place, a new one goes to
    the end. *)
Fixpoint Map_set {V} (key : string) (value : V) (m : list (string * V))
  : list (string * V) :=
  match m with
  | [] => [(key, value)]
  | (k, v) :: rest =>
      if bool_decide (k = key) then (key, value) :: rest
      else (k, v) :: Map_set key value rest
  end.

Definition set_modelCheckboxValues (m : list (string * bool)) (c : Component)
  : Component :=
  {| isOpen := isOpen c; appState := appState c;
     selectedDataset := selectedDataset c; selectedLayout := selectedLayout c;
     modelCheckboxValues := m; selectedTab := selectedTab c;
     pathForDatapoints := pathForDatapoints c;
     datapointsStatus := datapointsStatus c |}.

Definition set_selectedDataset (d : string) (c : Component) : Component :=
  {| isOpen := isOpen c; appState := appState c;
     selectedDataset := d; selectedLayout := selectedLayout c;
     modelCheckboxValues := modelCheckboxValues c;
     selectedTab := selectedTab c;
     pathForDatapoints := pathForDatapoints c;
     datapointsStatus := datapointsStatus c |}.

Definition set_selectedLayout (l : string) (c : Component) : Component :=
  {| isOpen := isOpen c; appState := appState c;
     selectedDataset := selectedDataset c; selectedLayout := l;
     modelCheckboxValues := modelCheckboxValues c;
     selectedTab := selectedTab c;
     pathForDatapoints := pathForDatapoints c;
     datapointsStatus := datapointsStatus c |}.

Definition set_selectedTab (t : TabName) (c : Component) : Component :=
  {| isOpen := isOpen c; appState := appState c;
     selectedDataset := selectedDataset c; selectedLayout := selectedLayout c;
     modelCheckboxValues := modelCheckboxValues c; selectedTab := t;
     pathForDatapoints := pathForDatapoints c;
     datapointsStatus := datapointsStatus c |}.

Definition set_isOpen (b : bool) (c : Component) : Component :=
  {| isOpen := b; appState := appState c;
     selectedDataset := selectedDataset c; selectedLayout := selectedLayout c;
     modelCheckboxValues := modelCheckboxValues c;
     selectedTab := selectedTab c;
     pathForDatapoints := pathForDatapoints c;
     datapointsStatus := datapointsStatus c |}.

Definition set_pathForDatapoints (p : string) (c : Component) : Component :=
  {| isOpen := isOpen c; appState := appState c;
     selectedDataset := selectedDataset c; selectedLayout := selectedLayout c;
     modelCheckboxValues := modelCheckboxValues c;
     selectedTab := selectedTab c;
     pathForDatapoints := p;
     datapointsStatus := datapointsStatus c |}.

Definition set_datapointsStatus (s : string) (c : Component) : Component :=
  {| isOpen := isOpen c; appState := appState c;
     selectedDataset := selectedDataset c; selectedLayout := selectedLayout c;
     modelCheckboxValues := modelCheckboxValues c;
     selectedTab := selectedTab c;
     pathForDatapoints := pathForDatapoints c;
     datapointsStatus := s |}.

Definition selectedModels (c : Component) : list string :=
  (List.filter (λ '(modelName, isSelected), isSelected)
     (modelCheckboxValues c)).*1.

Definition loadDatapointButtonsDisabled (c : Component) : bool :=
  bool_decide (pathForDatapoints c = "").

(** [input.meta['added']], read for its truthiness. *)
Definition meta_added (input : IndexedInput) : bool :=
  match added (meta input) with
  | Some b => b
  | None => false
  end.

Definition newDatapoints (c : Component) : list IndexedInput :=
  List.filter meta_added (currentInputData (appState c)).

Definition saveDatapointButtonDisabled (c : Component) : bool :=
  bool_decide (pathForDatapoints c = "")
  || bool_decide (length (newDatapoints c) = 0)
  || negb (bool_decide (currentDataset (appState c) = selectedDataset c)).

Definition close (c : Component) : Component := set_isOpen false c.

Definition initializeLocalState (c : Component) : Component :=
  let cleared : list (string * bool) := [] in
  let unchecked :=
    foldl (λ m modelName, Map_set modelName false m) cleared
      (metadata_models (appState c)) in
  let checked :=
    foldl (λ m modelName, Map_set modelName true m) unchecked
      (currentModels (appState c)) in
  set_selectedLayout (layoutName (appState c))
    (set_selectedDataset (currentDataset (appState c))
       (set_modelCheckboxValues checked c)).

Definition open (c : Component) : Component :=
  set_isOpen true (initializeLocalState c).

Definition submitSettings (c : Component) : Component * list Call :=
  (c, [UpdateSettings (selectedModels c) (selectedDataset c)
         (selectedLayout c)]).

(** The [cancel] and [submit] closures of [renderButtons]: the dialog's own
    fields as the closure writes them and the calls it makes. The update of
    the application state is the settings service's part. *)
Definition cancel (c : Component) : Component * list Call :=
  (close (set_selectedTab Models c), []).

Definition submit (c : Component) : Component * list Call :=
  let '(c1, calls) := submitSettings c in
  (close (set_selectedTab Models c1), calls).

(** [handleDatasetChange] of the radio button of dataset [name]. *)
Definition handleDatasetChange (name : string) (c : Component) : Component :=
  set_selectedDataset name
    (set_datapointsStatus "" (set_pathForDatapoints "" c)).

(** [updatePath] of the file-path input. *)
Definition updatePath (input_value : string) (c : Component) : Component :=
  set_pathForDatapoints input_value c.

Section Collaborators.

(** [settingsService.isDatasetValidForModels(dataset, models)] *)
Variable isDatasetValidForModels : string → list string → bool.
(** [NONE_DS_DICT_KEY] of [lib/types]. *)
Variable NONE_DS_DICT_KEY : string.
(** The path [await this.apiService.saveDatapoints(...)] resolves to. *)
Variable saveDatapoints : list IndexedInput → string → string → string.

(** [renderButtons(noModelsSelected, datasetValid)]: the [disabled]
    attribute of the Submit button. *)
Definition renderButtons (noModelsSelected datasetValid : bool) : bool :=
  let submitDisabled := noModelsSelected || negb datasetValid in
  submitDisabled.

(** [renderBottomBar], reduced to the Submit button it renders. *)
Definition renderBottomBar (c : Component) : bool :=
  let noModelsSelected := bool_decide (length (selectedModels c) = 0) in
  let datasetValid :=
    isDatasetValidForModels (selectedDataset c) (selectedModels c) in
  renderButtons noModelsSelected datasetValid.

(** [change] of the checkbox of model [name]; [checked] is
    [e.target.checked]. *)
Definition change (name : string) (checked : bool) (c : Component)
  : Component :=
  let c1 :=
    set_modelCheckboxValues (Map_set name checked (modelCheckboxValues c)) c in
  if negb (isDatasetValidForModels (selectedDataset c1) (selectedModels c1))
  then set_selectedDataset NONE_DS_DICT_KEY c1
  else c1.

(** [save] of the "Save new datapoints" button. *)
Definition save (c : Component) : Component * list Call :=
  let newPath :=
    saveDatapoints (newDatapoints c) (currentDataset (appState c))
      (pathForDatapoints c) in
  let n := length (newDatapoints c) in
  (set_datapointsStatus
     ("Saved " +:+ pretty n +:+ " datapoint"
        +:+ (if bool_decide (n = 1) then "" else "s")
        +:+ " at " +:+ newPath) c,
   [SaveDatapoints (newDatapoints c) (currentDataset (appState c))
      (pathForDatapoints c)]).

End Collaborators.

End GlobalSettings.

(** ** A small dataset and editing session, for concrete runs *)

Module Samples.
Import Types.

(** A stand-in for [isLitSubtype]: the field's type name is one of the
    names looked for. *)
Definition isLitSubtype_by_name
  (fieldSpec : option LitType) (typesToFind : list string) : bool :=
  match fieldSpec with
  | Some t => bool_decide (__name__ t ∈ typesToFind)
  | None => false
  end.

(** A stand-in for [defaultValueByField]: an empty array for token
    fields, the empty string otherwise. *)
Definition defaultValueByField_sample
  (key : string) (spec : gmap string LitType) : Value :=
  match spec !! key with
  | Some t => if bool_decide (__name__ t = "Tokens") then VStrings []
              else VString ""
  | None => VUndefined
  end.

(** A stand-in for the indexing collaborator: it numbers the records. *)
Definition indexDatapoints_sample (l : list IndexedInput)
  : list IndexedInput :=
  imap (λ i d, {| data := data d; id := "new-" +:+ pretty i;
                  meta := meta d |}) l.

Definition sentiment_spec : gmap string LitType :=
  <["sentence" := {| __name__ := "TextSegment"; vocab := None;
                     separator := None |}]>
  (<["label" := {| __name__ := "CategoryLabel"; vocab := Some ["0"; "1"];
                   separator := None |}]>
  (<["tokens" := {| __name__ := "Tokens"; vocab := None;
                    separator := None |}]>
  (<["tags" := {| __name__ := "SparseMultilabel"; vocab := None;
                  separator := None |}]> ∅))).

Definition sentiment_state : AppState :=
  {| currentDataset := "sst_dev";
     currentDatasetSpec := sentiment_spec;
     currentInputData := [];
     currentModels := ["sst_0"];
     currentModelRequiredInputSpecKeys := ["sentence"];
     compareExamplesEnabled := false;
     layoutName := "default";
     metadata_models := ["sst_0"; "sst_1"] |}.

(** A draft typed in from scratch while no record is selected. *)
Definition typed_draft : gmap string Value :=
  <["sentence" := VString "a fine film"]> (<["label" := VString "1"]> ∅).

Definition editor_without_selection : DatapointEditor.Component :=
  {| DatapointEditor.editedData := typed_draft;
     DatapointEditor.datapointEdited := true;
     DatapointEditor.appState := sentiment_state;
     DatapointEditor.selectionService :=
       {| primarySelectedId := None; primarySelectedInputData := None |};
     DatapointEditor.groupService :=
       {| categoricalFeatureNames := ["label"];
          numericalFeatureNames := [] |} |}.

(** The record the Add action builds from [typed_draft]. *)
Definition typed_datum : IndexedInput :=
  {| data := typed_draft; id := "";
     meta := {| source := Some "manual"; added := Some true;
                parentId := None |} |}.

(** A record that carries only one of the four fields. *)
Definition partial_record : gmap string Value :=
  <["sentence" := VString "hi"]> ∅.

(** A stand-in for the compatibility predicate: the sentiment dataset
    serves the two sentiment models, the empty dataset serves nothing. *)
Definition isDatasetValidForModels_sample
  (dataset : string) (models : list string) : bool :=
  bool_decide (dataset = "sst_dev")
  && forallb (λ m, bool_decide (m ∈ ["sst_0"; "sst_1"])) models.

(** The settings dialog before it is first opened. *)
Definition closed_dialog : GlobalSettings.Component :=
  {| GlobalSettings.isOpen := false;
     GlobalSettings.appState := sentiment_state;
     GlobalSettings.selectedDataset := "";
     GlobalSettings.selectedLayout := "";
     GlobalSettings.modelCheckboxValues := [];
     GlobalSettings.selectedTab := GlobalSettings.Models;
     GlobalSettings.pathForDatapoints := "";
     GlobalSettings.datapointsStatus := "" |}.

End Samples.

(** ** The datapoint editor: derived state, reactions and the keyboard *)

Module EditorView.
Import Types DatapointEditor.

(** [v?.length]: strings and arrays have a length, [undefined] and [null]
    stop the optional chain, numbers and booleans have no such property. *)
Definition optional_length (v : Value) : option nat :=
  match v with
  | VString s => Some (String.length s)
  | VStrings l => Some (length l)
  | VObjects n => Some n
  | VUndefined | VNull | VBoolean _ | VNumber _ => None
  end.

(** [0.8], as the binary64 value it denotes. *)
Definition percentileForDefault : float := 0x1.999999999999ap-1%float.

(** The keys [dataTextLengths] computes a length for ("non-categorical
    keys"). *)
Definition dataTextLengths_keys (c : Component) : list string :=
  List.filter
    (λ key,
       negb (bool_decide (key ∈ categoricalFeatureNames (groupService c))
             || bool_decide (key ∈ numericalFeatureNames (groupService c))))
    (currentInputDataKeys (appState c)).

(** The functions every plain object inherits from [Object.prototype], by
    their [length]. The twelfth inherited name, the accessor [__proto__],
    answers the prototype itself, an object without a [length]. *)
Definition Object_prototype_function_length (key : string) : option nat :=
  if bool_decide
       (key ∈ ["constructor"; "hasOwnProperty"; "isPrototypeOf";
               "propertyIsEnumerable"; "__lookupGetter__";
               "__lookupSetter__"])
  then Some 1
  else if bool_decide (key ∈ ["__defineGetter__"; "__defineSetter__"])
  then Some 2
  else if bool_decide (key ∈ ["toString"; "toLocaleString"; "valueOf"])
  then Some 0
  else None.

(** [o[key]?.length] on a record's fields, a plain object: an own property
    answers with its value, an absent name with what [Object.prototype]
    holds under it. *)
Definition property_length (o : gmap string Value) (key : string)
  : option nat :=
  match o !! key with
  | Some v => optional_length v
  | None => Object_prototype_function_length key
  end.

(** [dataTextLengths]; [d3_quantile] is [d3.quantile], which answers
    [undefined] ([None]) when the sample holds no number. [defaultLengths]
    is a plain object filled by assignment. *)
Definition dataTextLengths
  (d3_quantile : list (option nat) → float → option float) (c : Component)
  : gmap string float :=
  foldl
    (λ defaultLengths key,
       let lengths :=
         map (λ indexedInput, property_length (data indexedInput) key)
           (currentInputData (appState c)) in
       plain_object_set defaultLengths key
         (default 1%float (d3_quantile lengths percentileForDefault)))
    ∅ (dataTextLengths_keys c).

(** The controls [renderEntry] draws as a [<textarea class="input-box">]
    styled with [inputHeights[key]]. *)
Definition is_textarea (r : InputControl) : bool :=
  match r with
  | FreeformInput | TokensInput | SparseMultilabelInput _ => true
  | _ => false
  end.

(** The controls whose converter is the identity [s => s]: they store the
    typed text itself. *)
Definition stores_text (r : InputControl) : bool :=
  match r with
  | CategoricalInput _ | FreeformInput | ShortformInput => true
  | _ => false
  end.

(** A run of input events: each is the field edited, the converter of its
    control and the text of the event's target. *)
Definition applyEdits
  (edits : list (string * (string → Value) * string)) (c : Component)
  : Component :=
  foldl (λ c '(key, converterFn, target_value),
           handleInputChange key converterFn target_value c)
    c edits.

(** The reaction of [firstUpdated] to a change of the primary selection. *)
Definition onSelectedDataChange
  (defaultValueByField : string → gmap string LitType → Value)
  (c : Component) : Component :=
  resetEditedData defaultValueByField
    (match primarySelectedInputData (selectionService c) with
     | None => None
     | Some selectedData => Some (data selectedData)
     end) c.

(** [onKeyUp] of an entry: the new value of [isShiftPressed]. *)
Definition onKeyUp (key : string) (isShiftPressed : bool) : bool :=
  if bool_decide (key = "Shift") then false else isShiftPressed.

(** [onKeyDown] of an entry: the new value of [isShiftPressed] and whether
    the default action was prevented and the Add button clicked. *)
Definition onKeyDown (key : string) (isShiftPressed : bool) : bool * bool :=
  let isShiftPressed :=
    if bool_decide (key = "Shift") then true else isShiftPressed in
  if bool_decide (key = "Enter")
  then if negb isShiftPressed then (isShiftPressed, true)
       else (isShiftPressed, false)
  else (isShiftPressed, false).

Inductive KeyboardEvent :=
| KeyDown (key : string)
| KeyUp (key : string).

(** One keyboard event on an entry of the editor, given the value of the
    component's private field [isShiftPressed]: the new value of the field
    and the calls made. Enter without Shift clicks the Add button, whose
    handler runs unless the button is disabled. *)
Definition onKeyboardEvent
  (indexDatapoints : list IndexedInput → list IndexedInput)
  (e : KeyboardEvent) (isShiftPressed : bool) (c : Component)
  : bool * list Call :=
  match e with
  | KeyUp key => (onKeyUp key isShiftPressed, [])
  | KeyDown key =>
      let '(pressed, clicked) := onKeyDown key isShiftPressed in
      if clicked
      then (pressed,
            (click (make_disabled (renderButtons c))
               (onClickNew indexDatapoints) c).2)
      else (pressed, [])
  end.

(** [isShiftPressed] after a sequence of keyboard events. *)
Definition shift_after (events : list KeyboardEvent) (isShiftPressed : bool)
  : bool :=
  foldl
    (λ pressed e,
       match e with
       | KeyUp key => onKeyUp key pressed
       | KeyDown key => (onKeyDown key pressed).1
       end)
    isShiftPressed events.

End EditorView.

(** ** The settings dialog: lists, status lines and loading *)

Module SettingsView.
Import Types GlobalSettings.

(** [Map.prototype.get]; [None] is [undefined]. *)
Fixpoint Map_get {V} (key : string) (m : list (string * V)) : option V :=
  match m with
  | [] => None
  | (k, v) :: rest => if bool_decide (k = key) then Some v else Map_get key rest
  end.

(** [selected] of [renderModelSelect]:
    [this.modelCheckboxValues.get(name) === true]. *)
Definition model_selected (name : string) (c : Component) : bool :=
  match Map_get name (modelCheckboxValues c) with
  | Some true => true
  | _ => false
  end.

(** [toggleInSet(set, elt)] *)
Definition toggleInSet (set : gset string) (elt : string) : gset string :=
  if bool_decide (elt ∈ set) then set ∖ {[elt]} else set ∪ {[elt]}.

Record Status := {
  statusIcon : string;
  statusText : string;
  class_selected : bool;
  class_error : bool;
}.

(** [renderStatus(selected, disabled)] *)
Definition renderStatus (selected disabled : bool) : Status :=
  {| statusIcon :=
       if selected then "check_circle"
       else if disabled then "warning_amber" else "check_circle_outline";
     statusText :=
       if selected then "Selected"
       else if disabled then "Incompatible" else "Compatible";
     class_selected := selected;
     class_error := disabled |}.

(** The line-feed separator of [description.split('\n')]. *)
Definition newline : string := String (Ascii.ascii_of_nat 10) "".

(** [descriptionPreview] of [renderLine]: [description.split('\n')[0]];
    [None] is [undefined]. *)
Definition descriptionPreview (description : string) : option string :=
  JS.String_split description newline !! 0.

Definition set_appState (a : AppState) (c : Component) : Component :=
  {| isOpen := isOpen c; appState := a;
     selectedDataset := selectedDataset c; selectedLayout := selectedLayout c;
     modelCheckboxValues := modelCheckboxValues c;
     selectedTab := selectedTab c;
     pathForDatapoints := pathForDatapoints c;
     datapointsStatus := datapointsStatus c |}.

Section Collaborators.

Variable isDatasetValidForModels : string → list string → bool.
(** What [await this.apiService.loadDatapoints(dataset, path)] resolves
    to; [None] is [null]. *)
Variable loadDatapoints : string → string → option (list IndexedInput).
(** The application state after [this.appState.commitNewDatapoints(l)]. *)
Variable commitNewDatapoints : list IndexedInput → AppState → AppState.
(** The application state after the settings service has carried out
    [updateSettings({models, dataset, layoutName})]. *)
Variable updateSettings : list string → string → string → AppState → AppState.

(** The radio button of dataset [name] in [renderDatasetSelect]: its
    [checked] and [disabled] attributes. *)
Definition renderDatasetSelect (name : string) (c : Component) : bool * bool :=
  let selected := bool_decide (selectedDataset c = name) in
  let disabled := negb (isDatasetValidForModels name (selectedModels c)) in
  (selected, disabled).

(** The status line of dataset [name] ([renderLine] is called with
    [renderStatus = true] for datasets only). *)
Definition dataset_status (name : string) (c : Component) : Status :=
  let '(selected, disabled) := renderDatasetSelect name c in
  renderStatus selected disabled.

(** [load] of the "Load additional datapoints" button: the request to the
    service, then, for a non-empty answer, the commit, carried out on the
    application state the dialog reads. *)
Definition load (c : Component) : Component * list Call :=
  let request :=
    LoadDatapoints (selectedDataset c) (pathForDatapoints c) in
  let datapoints :=
    loadDatapoints (selectedDataset c) (pathForDatapoints c) in
  match datapoints with
  | None | Some [] =>
      (set_datapointsStatus
         ("No persisted datapoints found in " +:+ pathForDatapoints c) c,
       [request])
  | Some datapoints =>
      (set_datapointsStatus
         ("Loaded " +:+ pretty (length datapoints) +:+ " "
            +:+ "datapoint"
            +:+ (if bool_decide (length datapoints = 1) then "" else "s")
            +:+ " from " +:+ pathForDatapoints c)
         (set_appState (commitNewDatapoints datapoints (appState c)) c),
       [request; CommitNewDatapoints datapoints])
  end.

(** The [submit] closure with its call carried out: the dialog as [submit]
    leaves it, reading the application state the settings service has
    updated. *)
Definition submit_applied (c : Component) : Component * list Call :=
  let '(c1, calls) := submit c in
  (set_appState
     (updateSettings (selectedModels c) (selectedDataset c)
        (selectedLayout c) (appState c)) c1,
   calls).

(** A run of checkbox changes: each is the model and the new state of
    its checkbox. *)
Definition applyChanges (NONE_DS_DICT_KEY : string)
  (changes : list (string * bool)) (c : Component) : Component :=
  foldl (λ c '(name, checked),
           change isDatasetValidForModels NONE_DS_DICT_KEY name checked c)
    c changes.

End Collaborators.

End SettingsView.

(** ** More sample states *)

Module MoreSamples.
Import Types.

Definition selected_record : IndexedInput :=
  {| data := <["sentence" := VString "a dull film"]>
               (<["label" := VString "0"]>
               (<["tokens" := VStrings ["a"; "dull"; "film"]]>
               (<["tags" := VStrings []]> ∅)));
     id := "abc";
     meta := {| source := None; added := None; parentId := None |} |}.

(** The editor right after [selected_record] became the primary
    selection. *)
Definition editor_with_selection : DatapointEditor.Component :=
  {| DatapointEditor.editedData := data selected_record;
     DatapointEditor.datapointEdited := false;
     DatapointEditor.appState := Samples.sentiment_state;
     DatapointEditor.selectionService :=
       {| primarySelectedId := Some "abc";
          primarySelectedInputData := Some selected_record |};
     DatapointEditor.groupService :=
       {| categoricalFeatureNames := ["label"];
          numericalFeatureNames := [] |} |}.

(** The dialog after a model was ticked that the dataset does not serve. *)
Definition dialog_without_dataset : GlobalSettings.Component :=
  GlobalSettings.change Samples.isDatasetValidForModels_sample "_union_empty"
    "lm" true (GlobalSettings.open Samples.closed_dialog).

(** A stand-in for what the services do on the calls of Add: the first
    new record becomes the primary selection and, as the reaction of
    [firstUpdated] then has it, the unmodified draft. *)
Definition whenSettled_sample
  (left : DatapointEditor.Component * list Call)
  : DatapointEditor.Component :=
  match left.2 with
  | [IndexDatapoints _; CommitNewDatapoints (d :: _); SelectIds _ _] =>
      {| DatapointEditor.editedData := data d;
         DatapointEditor.datapointEdited := false;
         DatapointEditor.appState := DatapointEditor.appState left.1;
         DatapointEditor.selectionService :=
           {| primarySelectedId := Some (id d);
              primarySelectedInputData := Some d |};
         DatapointEditor.groupService :=
           DatapointEditor.groupService left.1 |}
  | _ => left.1
  end.

(** A stand-in for the settings service: it makes the submitted selection
    the current one. *)
Definition updateSettings_sample (models : list string)
  (dataset layoutName : string) (a : AppState) : AppState :=
  {| currentDataset := dataset;
     currentDatasetSpec := currentDatasetSpec a;
     currentInputData := currentInputData a;
     currentModels := models;
     currentModelRequiredInputSpecKeys := currentModelRequiredInputSpecKeys a;
     compareExamplesEnabled := compareExamplesEnabled a;
     layoutName := layoutName;
     metadata_models := metadata_models a |}.

(** A record and a specification that carry a field named [__proto__], as
    [JSON.parse] can produce them. *)
Definition proto_record : gmap string Value :=
  <["__proto__" := VString "x"]> (<["sentence" := VString "hi"]> ∅).

Definition proto_spec : gmap string LitType :=
  <["__proto__" := {| __name__ := "TextSegment"; vocab := None;
                      separator := None |}]>
  (<["sentence" := {| __name__ := "TextSegment"; vocab := None;
                      separator := None |}]> ∅).

(** The editor on a selected record that carries such a field, with a
    draft holding the same fields. *)
Definition editor_with_proto_record : DatapointEditor.Component :=
  {| DatapointEditor.editedData := proto_record;
     DatapointEditor.datapointEdited := false;
     DatapointEditor.appState := Samples.sentiment_state;
     DatapointEditor.selectionService :=
       {| primarySelectedId := Some "p";
          primarySelectedInputData :=
            Some {| data := proto_record; id := "p";
                    meta := {| source := None; added := None;
                               parentId := None |} |} |};
     DatapointEditor.groupService :=
       {| categoricalFeatureNames := []; numericalFeatureNames := [] |} |}.

Definition editor_with_proto_spec : DatapointEditor.Component :=
  {| DatapointEditor.editedData := ∅;
     DatapointEditor.datapointEdited := false;
     DatapointEditor.appState :=
       {| currentDataset := "odd";
          currentDatasetSpec := proto_spec;
          currentInputData := [];
          currentModels := [];
          currentModelRequiredInputSpecKeys := [];
          compareExamplesEnabled := false;
          layoutName := "default";
          metadata_models := [] |};
     DatapointEditor.selectionService :=
       {| primarySelectedId := None; primarySelectedInputData := None |};
     DatapointEditor.groupService :=
       {| categoricalFeatureNames := []; numericalFeatureNames := [] |} |}.

End MoreSamples.

(** * Properties *)

(** ** Facts about [split], [join] and [includes] *)

Module JSFacts.
Import JS.

Local Arguments String.append : simpl nomatch.

Lemma append_nil_r s : s +:+ "" = s.
Proof. induction s as [|c s IH]; simpl; congruence. Qed.

Lemma append_assoc s t u : (s +:+ t) +:+ u = s +:+ t +:+ u.
Proof. induction s as [|c s IH]; simpl; congruence. Qed.

Lemma length_append s t :
  String.length (s +:+ t) = String.length s + String.length t.
Proof. induction s as [|c s IH]; simpl; congruence. Qed.

Lemma length_zero s : String.length s = 0 → s = "".
Proof. by destruct s. Qed.

Lemma substring_to_append e t : substring_to (String.length e) (e +:+ t) = e.
Proof. induction e as [|c e IH]; simpl; [by destruct t | congruence]. Qed.

Lemma substring_from_append e t n :
  substring_from (String.length e + n) (e +:+ t) = substring_from n t.
Proof. induction e as [|c e IH]; simpl; [done | congruence]. Qed.

Lemma substring_from_zero s : substring_from 0 s = s.
Proof. by destruct s. Qed.

Lemma IsStringPrefix_append r t : IsStringPrefix r (r +:+ t) = true.
Proof.
  induction r as [|a r IH]; simpl; [done|].
  by rewrite Ascii.eqb_refl.
Qed.

Lemma IsStringPrefix_inv r s :
  IsStringPrefix r s = true → ∃ t, s = r +:+ t.
Proof.
  revert s. induction r as [|a r IH]; intros [|b s]; simpl; eauto; try done.
  intros [Hab Hrs]%andb_true_iff.
  apply Ascii.eqb_eq in Hab as ->.
  destruct (IH _ Hrs) as [t ->]. eauto.
Qed.

(** An occurrence of [r] at the head of [u +:+ t] lies inside [u] or runs
    over its end. *)
Lemma IsStringPrefix_straddle r u t :
  IsStringPrefix r (u +:+ t) = true →
  IsStringPrefix r u = true ∨ ∃ v, r = u +:+ v ∧ IsStringPrefix v t = true.
Proof.
  revert r. induction u as [|c u IH]; intros r; simpl.
  - intros H. right. by exists r.
  - destruct r as [|a r]; simpl; [by left|].
    intros [Hab H]%andb_true_iff.
    apply Ascii.eqb_eq in Hab as ->.
    destruct (IH _ H) as [Hl | (v & -> & Hv)].
    + left. by rewrite Ascii.eqb_refl.
    + right. by exists v.
Qed.

Lemma IsStringPrefix_shorter v r t :
  IsStringPrefix v (r +:+ t) = true →
  String.length v ≤ String.length r →
  IsStringPrefix v r = true.
Proof.
  revert r. induction v as [|a v IH]; intros [|b r]; simpl; try done; try lia.
  intros [Hab H]%andb_true_iff Hlen.
  rewrite Hab. simpl. apply IH; [done | lia].
Qed.

(** What [unbordered] rules out: a part [v] that both ends and starts [r]. *)
Lemma unbordered_no_border r u v :
  unbordered r = true →
  r = u +:+ v → IsStringPrefix v r = true → u = "" ∨ v = "".
Proof.
  intros Hunb Hr Hpre.
  destruct u as [|c u]; [by left|]. destruct v as [|d v]; [by right|].
  exfalso.
  set (k := String.length (String d v)).
  assert (Hk : In k (seq 1 (String.length r - 1))).
  { apply in_seq. subst r k. rewrite length_append. simpl. lia. }
  unfold unbordered in Hunb. rewrite forallb_forall in Hunb.
  specialize (Hunb k Hk). apply negb_true_iff, String.eqb_neq in Hunb.
  apply Hunb. clear Hunb Hk.
  destruct (IsStringPrefix_inv _ _ Hpre) as [w Hw].
  rewrite Hw at 1. subst k. rewrite substring_to_append.
  rewrite Hr at 1. rewrite length_append.
  replace (String.length (String c u) + String.length (String d v)
           - String.length (String d v))
    with (String.length (String c u) + 0) by lia.
  rewrite Hr. by rewrite substring_from_append, substring_from_zero.
Qed.

Lemma StringIndexOf_head s r :
  IsStringPrefix r s = true → StringIndexOf s r = Some 0.
Proof. intros H. destruct s; simpl; by rewrite H. Qed.

Lemma StringIndexOf_tail c s r :
  IsStringPrefix r (String c s) = false →
  StringIndexOf (String c s) r = S <$> StringIndexOf s r.
Proof. intros H. simpl StringIndexOf. by rewrite H. Qed.

Lemma String_includes_head s r :
  String_includes s r = false → IsStringPrefix r s = false.
Proof.
  unfold String_includes. intros H.
  destruct (IsStringPrefix r s) eqn:E; [|done].
  by rewrite (StringIndexOf_head _ _ E) in H.
Qed.

Lemma String_includes_tail c s r :
  String_includes (String c s) r = false → String_includes s r = false.
Proof.
  intros H. pose proof (String_includes_head _ _ H) as Hh.
  unfold String_includes in *. rewrite (StringIndexOf_tail _ _ _ Hh) in H.
  by destruct (StringIndexOf s r).
Qed.

Lemma String_includes_None s r :
  String_includes s r = false → StringIndexOf s r = None.
Proof. unfold String_includes. by destruct (StringIndexOf s r). Qed.

Lemma String_includes_empty s : String_includes s "" = true.
Proof. unfold String_includes. by rewrite StringIndexOf_head. Qed.

(** Behind an element without the separator, the first occurrence of an
    unbordered separator is the one that was put there. *)
Lemma StringIndexOf_first e r rest :
  unbordered r = true →
  String_includes e r = false →
  StringIndexOf (e +:+ r +:+ rest) r = Some (String.length e).
Proof.
  intros Hunb. induction e as [|c e IH]; intros Hinc.
  - simpl. apply StringIndexOf_head, IsStringPrefix_append.
  - pose proof (String_includes_head _ _ Hinc) as Hhead.
    assert (Hno : IsStringPrefix r (String c e +:+ r +:+ rest) = false).
    { destruct (IsStringPrefix r (String c e +:+ r +:+ rest)) eqn:E; [|done].
      apply IsStringPrefix_straddle in E as [E | (v & Hr & Hv)];
        [congruence|].
      assert (Hlen : String.length v ≤ String.length r).
      { rewrite Hr, length_append. lia. }
      pose proof (IsStringPrefix_shorter _ _ _ Hv Hlen) as Hvr.
      destruct (unbordered_no_border _ _ _ Hunb Hr Hvr) as [?| ->]; [done|].
      rewrite append_nil_r in Hr. subst r.
      pose proof (IsStringPrefix_append (String c e) "") as Hself.
      rewrite append_nil_r in Hself. congruence. }
    change (String c e +:+ r +:+ rest) with (String c (e +:+ r +:+ rest)) in *.
    rewrite (StringIndexOf_tail _ _ _ Hno).
    rewrite IH; [done|]. by eapply String_includes_tail.
Qed.

Lemma StringIndexOf_bound s r j :
  StringIndexOf s r = Some j → j + String.length r ≤ String.length s.
Proof.
  revert j. induction s as [|c s IH]; intros j.
  - simpl. destruct (IsStringPrefix r "") eqn:E; [|done].
    intros [= <-]. apply IsStringPrefix_inv in E as [t E].
    apply (f_equal String.length) in E. rewrite length_append in E.
    simpl in *. lia.
  - destruct (IsStringPrefix r (String c s)) eqn:E.
    + rewrite (StringIndexOf_head _ _ E). intros [= <-].
      apply IsStringPrefix_inv in E as [t E].
      apply (f_equal String.length) in E. rewrite length_append in E. lia.
    + rewrite (StringIndexOf_tail _ _ _ E).
      destruct (StringIndexOf s r) as [j'|]; [|done].
      intros [= <-]. specialize (IH j' eq_refl). simpl. lia.
Qed.

Lemma length_substring_from n s :
  String.length (substring_from n s) = String.length s - n.
Proof.
  revert s. induction n as [|n IH]; intros [|c s]; simpl; done.
Qed.

(** The rounds [String_split] grants are enough: any larger number gives
    the same array. *)
Lemma split_loop_fuel fuel fuel' s r :
  r ≠ "" →
  String.length s ≤ fuel → String.length s ≤ fuel' →
  split_loop fuel s r = split_loop fuel' s r.
Proof.
  intros Hr. revert fuel' s.
  induction fuel as [|fuel IH]; intros fuel' s Hfuel Hfuel'.
  - assert (s = "") as -> by (apply length_zero; lia).
    assert (StringIndexOf "" r = None) as Hnone by (by destruct r).
    destruct fuel'; simpl in *; by rewrite Hnone.
  - destruct (StringIndexOf s r) as [j|] eqn:Hj.
    + pose proof (StringIndexOf_bound _ _ _ Hj) as Hb.
      assert (0 < String.length r) by (destruct r; simpl; [done | lia]).
      destruct fuel' as [|fuel']; [lia|].
      simpl. rewrite Hj. f_equal.
      apply IH; rewrite length_substring_from; lia.
    + destruct fuel'; simpl; by rewrite Hj.
Qed.

Lemma join_loop_acc sep l acc k :
  join_loop sep acc (S k) l = acc +:+ join_loop sep "" 1 l.
Proof.
  revert acc k. induction l as [|e l IH]; intros acc k; simpl.
  - by rewrite append_nil_r.
  - rewrite (IH ((acc +:+ sep) +:+ e)), (IH (sep +:+ e)).
    by rewrite !append_assoc.
Qed.

Lemma Array_join_nil sep : Array_join [] sep = "".
Proof. done. Qed.

Lemma Array_join_singleton e sep : Array_join [e] sep = e.
Proof. done. Qed.

Lemma Array_join_cons e e' l sep :
  Array_join (e :: e' :: l) sep = e +:+ sep +:+ Array_join (e' :: l) sep.
Proof.
  unfold Array_join. simpl.
  rewrite (join_loop_acc sep l ((e +:+ sep) +:+ e')).
  rewrite (join_loop_acc sep l e').
  by rewrite !append_assoc.
Qed.

(** [split] undoes [join] on a non-empty array whose elements are free of
    the separator. *)
Lemma split_loop_join r e l fuel :
  r ≠ "" →
  unbordered r = true →
  Forall (λ x, String_includes x r = false) (e :: l) →
  String.length (Array_join (e :: l) r) ≤ fuel →
  split_loop fuel (Array_join (e :: l) r) r = e :: l.
Proof.
  intros Hr Hunb. revert e fuel.
  induction l as [|e' l IH]; intros e fuel Hall Hfuel.
  - rewrite Array_join_singleton.
    apply Forall_cons in Hall as [He _].
    destruct fuel; simpl; by rewrite (String_includes_None _ _ He).
  - apply Forall_cons in Hall as [He Hall].
    rewrite Array_join_cons in *.
    rewrite !length_append in Hfuel.
    assert (0 < String.length r) by (destruct r; simpl; [done | lia]).
    destruct fuel as [|fuel]; [lia|].
    simpl split_loop. rewrite (StringIndexOf_first _ _ _ Hunb He).
    rewrite substring_to_append.
    replace (String.length e + String.length r)
      with (String.length e + (String.length r + 0)) by lia.
    rewrite !substring_from_append, substring_from_zero.
    f_equal. apply IH; [done | lia].
Qed.

Lemma String_split_join r e l :
  r ≠ "" →
  unbordered r = true →
  Forall (λ x, String_includes x r = false) (e :: l) →
  String_split (Array_join (e :: l) r) r = e :: l.
Proof.
  intros Hr Hunb Hall. unfold String_split.
  destruct r as [|c r]; [done|].
  by apply split_loop_join.
Qed.

Lemma Array_join_empty_inv l r :
  r ≠ "" → Array_join l r = "" → l = [] ∨ l = [""].
Proof.
  intros Hr. destruct l as [|e [|e' l]]; [by left | |].
  - rewrite Array_join_singleton. intros ->. by right.
  - rewrite Array_join_cons. intros H.
    apply (f_equal String.length) in H. rewrite !length_append in H.
    destruct r; simpl in *; [done | lia].
Qed.

(** A separator of one code unit has no border. *)
Lemma unbordered_single c : unbordered (String c "") = true.
Proof. done. Qed.

Example String_split_samples :
  String_split "a b  c" " " = ["a"; "b"; ""; "c"]
  ∧ String_split "" " " = [""]
  ∧ String_split " " " " = [""; ""]
  ∧ String_split "abc" "" = ["a"; "b"; "c"]
  ∧ String_split "" "" = []
  ∧ String_split "x, y,z" ", " = ["x"; "y,z"].
Proof. repeat split. Qed.

Example Array_join_samples :
  Array_join [] "," = ""
  ∧ Array_join [""] "," = ""
  ∧ Array_join ["a"; "b"; "c"] ", " = "a, b, c"
  ∧ Array_join [""; ""] " " = " ".
Proof. repeat split. Qed.

Example unbordered_samples :
  unbordered "," = true ∧ unbordered " | " = false
  ∧ unbordered "ab" = true ∧ unbordered "aa" = false
  ∧ unbordered "" = true.
Proof. repeat split. Qed.

End JSFacts.

(** ** The datapoint editor: field dispatch and the two text converters *)

Module DispatchFacts.
Import Types DatapointEditor JS JSFacts.

(** C1. The control [renderEntry] picks for a field is the first match of
    the ordered rules of section 4.1 (enumeration, categorical feature,
    numeric feature, token sequence, span labels, edge labels, sparse
    multilabel, free text by default) on the field's attributes, and two
    fields with the same attributes get the same strategy. *)
Theorem renderInput_first_match
  (isLitSubtype : option LitType → list string → bool) :
  (∀ key c,
     strategy_of (renderInput isLitSubtype key c)
     = first_match dispatch_policy (attributes_of isLitSubtype key c))
  ∧ (∀ key c key' c',
       attributes_of isLitSubtype key c = attributes_of isLitSubtype key' c' →
       strategy_of (renderInput isLitSubtype key c)
       = strategy_of (renderInput isLitSubtype key' c')).
Proof.
  assert (H : ∀ key c,
     strategy_of (renderInput isLitSubtype key c)
     = first_match dispatch_policy (attributes_of isLitSubtype key c)).
  { intros key c. unfold renderInput, attributes_of, dispatch_policy.
    simpl first_match.
    destruct (currentDatasetSpec (appState c) !! key ≫= vocab) as [v|] eqn:Ev.
    - rewrite bool_decide_eq_true_2 by eauto. done.
    - rewrite (bool_decide_eq_false_2 (is_Some None)) by apply is_Some_None.
      repeat case_match; done. }
  split; [exact H|].
  intros key c key' c' Heq. by rewrite !H, Heq.
Qed.

Lemma splitConverter_empty separator :
  splitConverter separator "" = VStrings [].
Proof. done. Qed.

Lemma splitConverter_nonempty separator value :
  value ≠ "" →
  splitConverter separator value = VStrings (String_split value separator).
Proof.
  intros H. unfold splitConverter. simpl.
  by rewrite bool_decide_eq_false_2.
Qed.

(** The round trip both join-based controls share. *)
Lemma splitConverter_join separator l :
  unbordered separator = true →
  l ≠ [""] →
  Forall (λ x, String_includes x separator = false) l →
  splitConverter separator (Array_join l separator) = VStrings l.
Proof.
  intros Hunb Hne Hall.
  destruct l as [|e l]; [done|].
  assert (Hsep : separator ≠ "").
  { intros ->. apply Forall_cons in Hall as [He _].
    by rewrite String_includes_empty in He. }
  rewrite splitConverter_nonempty.
  - by rewrite String_split_join.
  - intros Hempty.
    by destruct (Array_join_empty_inv _ _ Hsep Hempty).
Qed.

(** C2, as amended. A token list other than [[""]] whose elements contain
    no space is displayed as its elements joined by single spaces, and the
    converter of the token control reads that text back as the same list;
    the empty list is displayed as the empty string and the empty string is
    read as the empty list. *)
Theorem tokens_round_trip (ToNumber : string → float) (T : list string) :
  T ≠ [""] →
  Forall (λ t, String_includes t " " = false) T →
  converterFn ToNumber TokensInput = Some (splitConverter " ")
  ∧ valueAsString " " (VStrings T) = Some (Array_join T " ")
  ∧ splitConverter " " (Array_join T " ") = VStrings T
  ∧ valueAsString " " (VStrings []) = Some ""
  ∧ splitConverter " " "" = VStrings [].
Proof.
  intros Hne Hall. repeat split.
  by apply splitConverter_join.
Qed.

(** C2 fails for the list holding one empty token: it is displayed as the
    empty string, which is read back as the empty list. *)
Lemma tokens_round_trip_single_empty_token :
  Forall (λ t, String_includes t " " = false) [""]
  ∧ valueAsString " " (VStrings [""]) = Some ""
  ∧ splitConverter " " "" = VStrings []
  ∧ VStrings [] ≠ VStrings [""].
Proof. repeat split; [by repeat constructor | done]. Qed.

Lemma tokens_round_trip_witness :
  converterFn (λ _, 0%float) TokensInput = Some (splitConverter " ")
  ∧ valueAsString " " (VStrings ["the"; ""; "cat"])
    = Some (Array_join ["the"; ""; "cat"] " ")
  ∧ splitConverter " " (Array_join ["the"; ""; "cat"] " ")
    = VStrings ["the"; ""; "cat"]
  ∧ valueAsString " " (VStrings []) = Some ""
  ∧ splitConverter " " "" = VStrings [].
Proof.
  apply (tokens_round_trip (λ _, 0%float) ["the"; ""; "cat"]).
  - discriminate.
  - repeat constructor.
Defined.

(** C3, as amended. The sparse-multilabel control gets the separator of the
    field specification, a comma when there is none. For a separator
    without a border (no proper non-empty prefix of it is also its suffix,
    which holds for every separator of one code unit) and a label list
    other than [[""]] whose elements do not contain the separator, the
    displayed text is read back as the same list; the empty string is read
    as the empty list. *)
Theorem sparse_multilabel_round_trip
  (isLitSubtype : option LitType → list string → bool)
  (ToNumber : string → float)
  (key : string) (c : Component) (s : string) (labels : list string) :
  renderInput isLitSubtype key c = SparseMultilabelInput s →
  unbordered s = true →
  labels ≠ [""] →
  Forall (λ x, String_includes x s = false) labels →
  s = default "," (currentDatasetSpec (appState c) !! key ≫= separator)
  ∧ converterFn ToNumber (SparseMultilabelInput s) = Some (splitConverter s)
  ∧ valueAsString s (VStrings labels) = Some (Array_join labels s)
  ∧ splitConverter s (Array_join labels s) = VStrings labels
  ∧ splitConverter s "" = VStrings [].
Proof.
  intros Hr Hunb Hne Hall. split; [|repeat split].
  - unfold renderInput in Hr. repeat case_match; congruence.
  - by apply splitConverter_join.
Qed.

(** C3 fails for a separator with a border: ["aa"] between ["a"] and
    ["b"], neither of which contains it, is found one code unit early. It
    also fails, with the default comma, for the list holding one empty
    label, which is read back as the empty list. *)
Lemma sparse_multilabel_round_trip_fails :
  (Forall (λ x, String_includes x "aa" = false) ["a"; "b"]
   ∧ valueAsString "aa" (VStrings ["a"; "b"]) = Some "aaab"
   ∧ splitConverter "aa" "aaab" = VStrings [""; "ab"]
   ∧ VStrings [""; "ab"] ≠ VStrings ["a"; "b"])
  ∧ (Forall (λ x, String_includes x "," = false) [""]
     ∧ valueAsString "," (VStrings [""]) = Some ""
     ∧ splitConverter "," "" = VStrings []
     ∧ VStrings [] ≠ VStrings [""]).
Proof.
  split; (repeat split; [by repeat constructor | done]).
Qed.

Lemma sparse_multilabel_round_trip_witness :
  "," = default ","
          (currentDatasetSpec
             (appState Samples.editor_without_selection) !! "tags"
           ≫= separator)
  ∧ converterFn (λ _, 0%float) (SparseMultilabelInput ",")
    = Some (splitConverter ",")
  ∧ valueAsString "," (VStrings ["pos"; "long review"])
    = Some (Array_join ["pos"; "long review"] ",")
  ∧ splitConverter "," (Array_join ["pos"; "long review"] ",")
    = VStrings ["pos"; "long review"]
  ∧ splitConverter "," "" = VStrings [].
Proof.
  apply (sparse_multilabel_round_trip Samples.isLitSubtype_by_name
           (λ _, 0%float) "tags" Samples.editor_without_selection ","
           ["pos"; "long review"]).
  - vm_compute. reflexivity.
  - reflexivity.
  - discriminate.
  - repeat constructor.
Defined.

Example renderInput_samples :
  map (λ key, renderInput Samples.isLitSubtype_by_name key
                Samples.editor_without_selection)
    ["label"; "sentence"; "tokens"; "tags"; "missing"]
  = [CategoricalInput ["0"; "1"]; FreeformInput; TokensInput;
     SparseMultilabelInput ","; FreeformInput].
Proof. vm_compute. reflexivity. Qed.

End DispatchFacts.

(** ** The datapoint editor: draft, required inputs and the commit actions *)

Module EditorFacts.
Import Types DatapointEditor.

Lemma elem_of_Object_keys {V} (o : gmap string V) key :
  key ∈ Object_keys o ↔ is_Some (o !! key).
Proof.
  unfold Object_keys. rewrite list_elem_of_fmap. split.
  - intros ([k v] & -> & Hin). apply elem_of_map_to_list in Hin. eauto.
  - intros [v Hv]. exists (key, v). split; [done|].
    by apply elem_of_map_to_list.
Qed.

Lemma strict_eq_empty_string_get (o : gmap string Value) key :
  strict_eq_empty_string (get o key) = true ↔ o !! key = Some (VString "").
Proof.
  unfold get. destruct (o !! key) as [v|]; simpl; [|done].
  destruct v as [| | | |s| |]; simpl; try done.
  destruct s; simpl; split; congruence.
Qed.

Lemma allRequiredInputsFilledOut_loop_false required editedData keys :
  allRequiredInputsFilledOut_loop required editedData keys = false
  ↔ ∃ key, key ∈ keys ∧ key ∈ required
           ∧ strict_eq_empty_string (get editedData key) = true.
Proof.
  induction keys as [|k keys IH]; simpl.
  - split; [done|]. intros (key & Hin & _). by apply elem_of_nil in Hin.
  - destruct (bool_decide (k ∈ required)
              && strict_eq_empty_string (get editedData k)) eqn:E.
    + split; [|done]. intros _. exists k.
      apply andb_true_iff in E as [Hreq%bool_decide_eq_true Hempty].
      split; [left|done].
    + rewrite IH. split; intros (key & Hin & Hreq & Hempty); exists key.
      * split; [by right|done].
      * apply elem_of_cons in Hin as [->|Hin]; [|done].
        rewrite bool_decide_eq_true_2, Hempty in E by done. done.
Qed.

(** C4. [allRequiredInputsFilledOut] is false exactly when some field of
    the draft that the current model requires holds the empty string; with
    no required field it is true. *)
Theorem allRequiredInputsFilledOut_false_iff (c : Component) :
  (allRequiredInputsFilledOut c = false
   ↔ ∃ key, key ∈ currentModelRequiredInputSpecKeys (appState c)
            ∧ editedData c !! key = Some (VString ""))
  ∧ (currentModelRequiredInputSpecKeys (appState c) = [] →
     allRequiredInputsFilledOut c = true).
Proof.
  assert (Hiff : allRequiredInputsFilledOut c = false
   ↔ ∃ key, key ∈ currentModelRequiredInputSpecKeys (appState c)
            ∧ editedData c !! key = Some (VString "")).
  { unfold allRequiredInputsFilledOut.
    rewrite allRequiredInputsFilledOut_loop_false.
    split.
    - intros (key & _ & Hreq & Hempty). exists key.
      by rewrite <- strict_eq_empty_string_get.
    - intros (key & Hreq & Hempty). exists key.
      rewrite elem_of_Object_keys, strict_eq_empty_string_get. eauto. }
  split; [exact Hiff|].
  intros Hnone. apply not_false_iff_true. rewrite Hiff, Hnone.
  intros (key & Hin & _). by apply elem_of_nil in Hin.
Qed.

Lemma plain_object_set_lookup {V} (o : gmap string V) k v key :
  plain_object_set o k v !! key
  = if decide (key = k ∧ key ≠ "__proto__") then Some v else o !! key.
Proof.
  unfold plain_object_set. case_bool_decide as Hproto.
  - subst k. by rewrite decide_False by by intros [-> ?].
  - destruct (decide (key = k)) as [->|Hne].
    + rewrite decide_True by done. apply lookup_insert_eq.
    + rewrite decide_False by by intros [? _]. by apply lookup_insert_ne.
Qed.

Lemma foldl_plain_object_set_lookup {V} (f : string → V) keys
  (m : gmap string V) key :
  foldl (λ data k, plain_object_set data k (f k)) m keys !! key
  = if decide (key ∈ keys ∧ key ≠ "__proto__") then Some (f key)
    else m !! key.
Proof.
  revert m. induction keys as [|k keys IH]; intros m; cbn [foldl].
  - rewrite decide_False; [done|]. intros [H _]. by apply elem_of_nil in H.
  - rewrite IH, plain_object_set_lookup.
    destruct (decide (key ∈ keys ∧ key ≠ "__proto__")) as [[Hin Hp]|Hnin].
    + rewrite decide_True; [done|]. split; [by right|done].
    + destruct (decide (key = k ∧ key ≠ "__proto__")) as [[-> Hp]|Hne].
      * rewrite decide_True; [done|]. split; [by left|done].
      * rewrite decide_False; [done|].
        intros [[->|Hin]%elem_of_cons Hp]; [by apply Hne|by apply Hnin].
Qed.

Lemma resetEditedData_null_lookup defaultValueByField c key :
  editedData (resetEditedData defaultValueByField None c) !! key
  = if decide (is_Some (currentDatasetSpec (appState c) !! key)
               ∧ key ≠ "__proto__")
    then Some (defaultValueByField key (currentDatasetSpec (appState c)))
    else None.
Proof.
  unfold resetEditedData, currentInputDataKeys. simpl.
  rewrite (foldl_plain_object_set_lookup
             (λ k, defaultValueByField k (currentDatasetSpec (appState c)))).
  rewrite lookup_empty.
  destruct (decide (is_Some (currentDatasetSpec (appState c) !! key)
                    ∧ key ≠ "__proto__")) as [[H Hp]|H].
  - rewrite decide_True; [done|]. split; [by apply elem_of_Object_keys|done].
  - rewrite decide_False; [done|]. intros [Hin Hp]. apply H.
    split; [by apply elem_of_Object_keys|done].
Qed.

Lemma resetEditedData_record defaultValueByField record c :
  editedData (resetEditedData defaultValueByField (Some record) c)
  = delete "__proto__" record.
Proof.
  apply map_eq. intros key. unfold resetEditedData. simpl.
  rewrite (foldl_plain_object_set_lookup (λ k, get record k)), lookup_empty.
  destruct (decide (key = "__proto__")) as [->|Hp].
  - rewrite lookup_delete_eq. rewrite decide_False; [done|]. by intros [_ ?].
  - rewrite lookup_delete_ne by done.
    destruct (decide (key ∈ Object_keys record ∧ key ≠ "__proto__"))
      as [[H _]|H].
    + apply elem_of_Object_keys in H as [v Hv]. unfold get. by rewrite Hv.
    + symmetry. apply eq_None_not_Some. intros Hsome. apply H.
      split; [by apply elem_of_Object_keys|done].
Qed.

(** C5, as amended. [resetEditedData(null)] clears the modified flag and
    leaves a draft whose fields are those of the current field
    specification, each at its default value, except that a field named
    [__proto__] is never stored: the draft is a plain object filled by
    assignment. [resetEditedData(record)] clears the flag and leaves a
    draft equal to the record field by field, again without a field named
    [__proto__]: its key set is the record's, which is the specification's
    exactly when the record (that name apart) has the specification's
    fields. *)
Theorem resetEditedData_draft
  (defaultValueByField : string → gmap string LitType → Value)
  (c : Component) :
  (datapointEdited (resetEditedData defaultValueByField None c) = false
   ∧ dom (editedData (resetEditedData defaultValueByField None c))
     = dom (currentDatasetSpec (appState c)) ∖ {["__proto__"]}
   ∧ ∀ key, key ∈ dom (currentDatasetSpec (appState c)) →
       key ≠ "__proto__" →
       editedData (resetEditedData defaultValueByField None c) !! key
       = Some (defaultValueByField key (currentDatasetSpec (appState c))))
  ∧ (∀ record,
       datapointEdited (resetEditedData defaultValueByField (Some record) c)
       = false
       ∧ editedData (resetEditedData defaultValueByField (Some record) c)
         = delete "__proto__" record
       ∧ dom (editedData
                (resetEditedData defaultValueByField (Some record) c))
         = dom record ∖ {["__proto__"]}
       ∧ (dom (editedData
                 (resetEditedData defaultValueByField (Some record) c))
            = dom (currentDatasetSpec (appState c))
          ↔ dom record ∖ {["__proto__"]}
            = dom (currentDatasetSpec (appState c)))).
Proof.
  split; [split; [done|split]|].
  - apply set_eq. intros key.
    rewrite elem_of_difference, elem_of_singleton, !elem_of_dom.
    rewrite resetEditedData_null_lookup.
    case_decide as H; [|split; [by intros [? ?]|done]].
    split; [done|]. by eexists.
  - intros key Hin%elem_of_dom Hp.
    rewrite resetEditedData_null_lookup. by rewrite decide_True.
  - intros record. rewrite resetEditedData_record, dom_delete_L. done.
Qed.

(** C8, as amended. The Add button is enabled exactly when the draft is
    modified and every required input is filled, and a click on the
    disabled button does nothing. The Add action hands one new record to
    the indexing collaborator, holding the draft, the source tag "manual",
    the added flag and, as parent reference, the primary-selected id of the
    moment, which is null when nothing is selected; it then commits the
    indexed records and selects them, with or without a selection. *)
Theorem onClickNew_commits
  (indexDatapoints : list IndexedInput → list IndexedInput) (c : Component) :
  make_disabled (renderButtons c)
  = negb (datapointEdited c && allRequiredInputsFilledOut c)
  ∧ (∃ datum,
       (onClickNew indexDatapoints c).2
       = [IndexDatapoints [datum];
          CommitNewDatapoints (indexDatapoints [datum]);
          SelectIds ThisSelectionService
            (map (λ d, Some (id d)) (indexDatapoints [datum]))]
       ∧ data datum = editedData c
       ∧ source (meta datum) = Some "manual"
       ∧ added (meta datum) = Some true
       ∧ parentId (meta datum) = primarySelectedId (selectionService c))
  ∧ (onClickNew indexDatapoints c).1 = c
  ∧ (datapointEdited c && allRequiredInputsFilledOut c = false →
     click (make_disabled (renderButtons c)) (onClickNew indexDatapoints) c
     = (c, []))
  ∧ (datapointEdited c && allRequiredInputsFilledOut c = true →
     click (make_disabled (renderButtons c)) (onClickNew indexDatapoints) c
     = onClickNew indexDatapoints c).
Proof.
  split; [done|]. split; [|split; [done|]].
  - eexists. split; [reflexivity|]. done.
  - unfold click, renderButtons. simpl. split; intros ->; done.
Qed.

(** C9. Add-and-compare makes the calls of Add and then selects, in the
    second selection service, the id that was primary-selected when the
    action started, whatever the selection has become by the time the Add
    part is done. It switches comparison mode on, on the component as the
    Add part left it, and writes nothing else. The records selected by the
    Add part in the module's own selection service are those the indexing
    collaborator returned. *)
Theorem onClickCompare_selects_parent
  (indexDatapoints : list IndexedInput → list IndexedInput)
  (whenSettled : Component * list Call → Component) (c : Component) :
  (onClickCompare indexDatapoints whenSettled c).2
  = (onClickNew indexDatapoints c).2
    ++ [SelectIds (SelectionServiceAt 1)
          [primarySelectedId (selectionService c)]]
  ∧ compareExamplesEnabled
      (appState (onClickCompare indexDatapoints whenSettled c).1)
    = true
  ∧ (onClickCompare indexDatapoints whenSettled c).1
    = set_appState
        (set_compareExamplesEnabled true
           (appState (whenSettled (onClickNew indexDatapoints c))))
        (whenSettled (onClickNew indexDatapoints c))
  ∧ (∃ datum,
       parentId (meta datum) = primarySelectedId (selectionService c)
       ∧ SelectIds ThisSelectionService
           (map (λ d, Some (id d)) (indexDatapoints [datum]))
         ∈ (onClickCompare indexDatapoints whenSettled c).2).
Proof.
  repeat split.
  eexists. split; last first.
  - cbn. do 2 apply list_elem_of_further. apply list_elem_of_here.
  - done.
Qed.

(** A run of Add-and-compare on an edited draft of the selected record
    ["abc"]: when the Add part is done the new record ["new-0"] is the
    primary selection, and the second selection service is given
    ["abc"]. *)
Example onClickCompare_sample :
  let edited :=
    handleInputChange "sentence" VString "a fine film"
      MoreSamples.editor_with_selection in
  let after :=
    onClickCompare Samples.indexDatapoints_sample
      MoreSamples.whenSettled_sample edited in
  primarySelectedId (selectionService after.1) = Some "new-0"
  ∧ datapointEdited after.1 = false
  ∧ compareExamplesEnabled (appState after.1) = true
  ∧ last after.2 = Some (SelectIds (SelectionServiceAt 1) [Some "abc"]).
Proof. vm_compute. repeat split. Qed.

(** C5 fails for a record that lacks a field of the specification: the
    draft then has the record's fields only. It also fails for a field
    named [__proto__]: a record's value under that name does not reach the
    draft, and a specification's field of that name gets no entry. *)
Lemma resetEditedData_draft_fails :
  dom (editedData
         (resetEditedData Samples.defaultValueByField_sample
            (Some Samples.partial_record) Samples.editor_without_selection))
  ≠ dom (currentDatasetSpec (appState Samples.editor_without_selection))
  ∧ (MoreSamples.proto_record !! "__proto__" = Some (VString "x")
     ∧ editedData
         (resetEditedData Samples.defaultValueByField_sample
            (Some MoreSamples.proto_record) Samples.editor_without_selection)
       !! "__proto__" = None)
  ∧ (is_Some (currentDatasetSpec
                (appState MoreSamples.editor_with_proto_spec) !! "__proto__")
     ∧ editedData
         (resetEditedData Samples.defaultValueByField_sample None
            MoreSamples.editor_with_proto_spec)
       !! "__proto__" = None).
Proof.
  split; [|split].
  - rewrite resetEditedData_record. intros Heq.
    assert (Hin : "label" ∈ dom (currentDatasetSpec
                                   (appState Samples.editor_without_selection))).
    { apply elem_of_dom. eexists. vm_compute. reflexivity. }
    rewrite <- Heq in Hin. apply elem_of_dom in Hin as [v Hv].
    vm_compute in Hv. discriminate.
  - split; [done|]. rewrite resetEditedData_record. apply lookup_delete_eq.
  - split; [by eexists|]. rewrite resetEditedData_null_lookup.
    rewrite decide_False; [done|]. by intros [_ ?].
Qed.

(** C8 fails where it says that Add fails or does nothing without a
    selection: the button is enabled and the click commits the draft as a
    record without a parent. *)
Lemma onClickNew_without_selection :
  primarySelectedId (selectionService Samples.editor_without_selection)
  = None
  ∧ make_disabled (renderButtons Samples.editor_without_selection) = false
  ∧ (click (make_disabled (renderButtons Samples.editor_without_selection))
       (onClickNew Samples.indexDatapoints_sample)
       Samples.editor_without_selection).2
    = [IndexDatapoints [Samples.typed_datum];
       CommitNewDatapoints
         (Samples.indexDatapoints_sample [Samples.typed_datum]);
       SelectIds ThisSelectionService [Some "new-0"]].
Proof. vm_compute. repeat split. Qed.

End EditorFacts.

(** ** The settings dialog *)

Module SettingsFacts.
Import Types GlobalSettings.

Lemma length_zero_iff_nil {A} (l : list A) : length l = 0 ↔ l = [].
Proof. by destruct l. Qed.

(** C6. The Submit button is disabled exactly when no model is selected or
    the external predicate rejects the selected dataset for the selected
    models; it is enabled exactly when some model is selected and the pair
    is accepted. A click on the disabled button submits nothing. *)
Theorem submit_disabled_iff
  (isDatasetValidForModels : string → list string → bool) (c : Component) :
  (renderBottomBar isDatasetValidForModels c = true
   ↔ selectedModels c = []
     ∨ isDatasetValidForModels (selectedDataset c) (selectedModels c) = false)
  ∧ (renderBottomBar isDatasetValidForModels c = false
     ↔ selectedModels c ≠ []
       ∧ isDatasetValidForModels (selectedDataset c) (selectedModels c)
         = true)
  ∧ (renderBottomBar isDatasetValidForModels c = true →
     click (renderBottomBar isDatasetValidForModels c) submit c = (c, [])).
Proof.
  unfold renderBottomBar, renderButtons, click.
  destruct (selectedModels c) as [|m ms] eqn:Hm; simpl.
  - split; [|split]; [split; [by left|done] | split; [done|by intros [? _]]
                     | done].
  - destruct (isDatasetValidForModels (selectedDataset c) (m :: ms)); simpl.
    + split; [|split]; [split; [done|by intros [?|?]] | done | done].
    + split; [|split]; [split; [by right|done] | split; [done|by intros [_ ?]]
                       | done].
Qed.

(** C7. After a change of a model checkbox the dataset selection is the
    sentinel if the external predicate rejects the selected dataset for the
    new set of selected models, and is unchanged if it accepts it. A change
    of the dataset selection leaves the checkboxes, and so the selected
    models, as they were. *)
Theorem change_keeps_dataset_compatible
  (isDatasetValidForModels : string → list string → bool)
  (NONE_DS_DICT_KEY : string)
  (name : string) (checked : bool) (c : Component) :
  modelCheckboxValues
    (change isDatasetValidForModels NONE_DS_DICT_KEY name checked c)
  = Map_set name checked (modelCheckboxValues c)
  ∧ (isDatasetValidForModels (selectedDataset c)
       (selectedModels
          (change isDatasetValidForModels NONE_DS_DICT_KEY name checked c))
     = false →
     selectedDataset
       (change isDatasetValidForModels NONE_DS_DICT_KEY name checked c)
     = NONE_DS_DICT_KEY)
  ∧ (isDatasetValidForModels (selectedDataset c)
       (selectedModels
          (change isDatasetValidForModels NONE_DS_DICT_KEY name checked c))
     = true →
     selectedDataset
       (change isDatasetValidForModels NONE_DS_DICT_KEY name checked c)
     = selectedDataset c)
  ∧ (∀ dataset,
       modelCheckboxValues (handleDatasetChange dataset c)
       = modelCheckboxValues c
       ∧ selectedModels (handleDatasetChange dataset c) = selectedModels c
       ∧ selectedDataset (handleDatasetChange dataset c) = dataset).
Proof.
  unfold change.
  set (c1 := set_modelCheckboxValues _ c).
  change (selectedDataset c1) with (selectedDataset c).
  destruct (isDatasetValidForModels (selectedDataset c) (selectedModels c1))
    eqn:Hvalid; simpl.
  - rewrite Hvalid. do 3 (split; [done|]). by intros dataset.
  - change (selectedModels (set_selectedDataset NONE_DS_DICT_KEY c1))
      with (selectedModels c1).
    rewrite Hvalid. do 3 (split; [done|]). by intros dataset.
Qed.

Lemma elem_of_selected (m : list (string * bool)) x :
  x ∈ (List.filter (λ '(modelName, isSelected), isSelected) m).*1
  ↔ (x, true) ∈ m.
Proof.
  rewrite list_elem_of_fmap. split.
  - intros ([y b] & -> & Hy). apply list_elem_of_In, filter_In in Hy as [Hy ->].
    by apply list_elem_of_In.
  - intros H. exists (x, true). split; [done|].
    apply list_elem_of_In, filter_In. split; [by apply list_elem_of_In|done].
Qed.

Lemma elem_of_Map_set {V} key (value : V) (m : list (string * V)) x v :
  NoDup m.*1 →
  (x, v) ∈ Map_set key value m
  ↔ (x = key ∧ v = value) ∨ (x ≠ key ∧ (x, v) ∈ m).
Proof.
  induction m as [|[k w] m IH]; intros Hnd; simpl.
  - rewrite list_elem_of_singleton. split.
    + intros [= -> ->]. by left.
    + intros [[-> ->]|[_ H]]; [done|]. by apply elem_of_nil in H.
  - apply NoDup_cons in Hnd as [Hk Hnd]. specialize (IH Hnd).
    assert (Hfresh : ∀ u, (k, u) ∈ m → False).
    { intros u Hu. apply Hk, list_elem_of_fmap. by exists (k, u). }
    case_bool_decide as Hkey.
    + subst k. rewrite !elem_of_cons. split.
      * intros [[= -> ->]|Hin]; [by left|]. right. split; [|by right].
        intros ->. by eapply Hfresh.
      * intros [[-> ->]|[Hne [[= -> ->]|Hin]]]; [by left|done|by right].
    + rewrite !elem_of_cons, IH. split.
      * intros [[= -> ->]|[[-> ->]|[Hne Hin]]].
        -- right. split; [done|by left].
        -- by left.
        -- right. split; [done|by right].
      * intros [[-> ->]|[Hne [[= -> ->]|Hin]]].
        -- right. by left.
        -- by left.
        -- right. right. done.
Qed.

(** [Map.prototype.set] on a map with distinct keys: the entry of [key]
    is selected exactly when it is set to [true], the others stay. *)
Lemma selected_Map_set key value (m : list (string * bool)) x :
  NoDup m.*1 →
  x ∈ (List.filter (λ '(modelName, isSelected), isSelected)
         (Map_set key value m)).*1
  ↔ (x = key ∧ value = true)
    ∨ (x ≠ key
       ∧ x ∈ (List.filter (λ '(modelName, isSelected), isSelected) m).*1).
Proof.
  intros Hnd. rewrite !elem_of_selected, elem_of_Map_set by done.
  split; intros [[-> ?]|?]; auto.
Qed.

Lemma elem_of_newDatapoints c x :
  x ∈ newDatapoints c
  ↔ x ∈ currentInputData (appState c) ∧ added (meta x) = Some true.
Proof.
  unfold newDatapoints. rewrite !list_elem_of_In, filter_In.
  unfold meta_added.
  destruct (added (meta x)) as [[]|]; split; intros [? ?]; done.
Qed.

(** C10. The "Save new datapoints" button is disabled exactly when the file
    path is empty, or no current record is marked as added, or the dataset
    selected in the dialog is not the application's current dataset. A save
    started from the button is therefore always for the current dataset,
    which is then also the selected one. *)
Theorem saveDatapointButtonDisabled_iff (c : Component) :
  (saveDatapointButtonDisabled c = true
   ↔ pathForDatapoints c = ""
     ∨ newDatapoints c = []
     ∨ currentDataset (appState c) ≠ selectedDataset c)
  ∧ (∀ x, x ∈ newDatapoints c
          ↔ x ∈ currentInputData (appState c) ∧ added (meta x) = Some true)
  ∧ (∀ saveDatapoints l dataset path,
       SaveDatapoints l dataset path
       ∈ (click (saveDatapointButtonDisabled c) (save saveDatapoints) c).2 →
       dataset = currentDataset (appState c)
       ∧ dataset = selectedDataset c
       ∧ l = newDatapoints c ∧ l ≠ []
       ∧ path = pathForDatapoints c ∧ path ≠ "").
Proof.
  assert (Hiff : saveDatapointButtonDisabled c = true
   ↔ pathForDatapoints c = ""
     ∨ newDatapoints c = []
     ∨ currentDataset (appState c) ≠ selectedDataset c).
  { unfold saveDatapointButtonDisabled.
    rewrite !orb_true_iff, negb_true_iff, !bool_decide_eq_true,
      bool_decide_eq_false, length_zero_iff_nil.
    tauto. }
  split; [exact Hiff|]. split; [apply elem_of_newDatapoints|].
  intros saveDatapoints l dataset path. unfold click.
  destruct (saveDatapointButtonDisabled c) eqn:Hdis; simpl.
  - intros H. by apply elem_of_nil in H.
  - intros H. apply list_elem_of_singleton in H. injection H as -> -> ->.
    assert (Hnot : ¬ (pathForDatapoints c = ""
                      ∨ newDatapoints c = []
                      ∨ currentDataset (appState c) ≠ selectedDataset c)).
    { intros Hor. by apply Hiff in Hor. }
    destruct (decide (currentDataset (appState c) = selectedDataset c));
      [|tauto].
    repeat split; try done; intros ?; tauto.
Qed.

Example change_sample :
  let opened := open Samples.closed_dialog in
  let ticked :=
    change Samples.isDatasetValidForModels_sample "_union_empty"
      "sst_1" true opened in
  let cleared :=
    change Samples.isDatasetValidForModels_sample "_union_empty"
      "sst_0" false
      (change Samples.isDatasetValidForModels_sample "_union_empty"
         "sst_1" false ticked) in
  (selectedModels opened, selectedDataset opened) = (["sst_0"], "sst_dev")
  ∧ (selectedModels ticked, selectedDataset ticked)
    = (["sst_0"; "sst_1"], "sst_dev")
  ∧ renderBottomBar Samples.isDatasetValidForModels_sample ticked = false
  ∧ (selectedModels cleared, selectedDataset cleared) = ([], "sst_dev")
  ∧ renderBottomBar Samples.isDatasetValidForModels_sample cleared = true.
Proof. vm_compute. repeat split. Qed.

End SettingsFacts.

(** ** More on the text converters: what a parsed list looks like *)

Module ParseFacts.
Import Types DatapointEditor JS JSFacts DispatchFacts.

Local Arguments String.append : simpl nomatch.

Lemma substring_to_from n s : substring_to n s +:+ substring_from n s = s.
Proof.
  revert s. induction n as [|n IH]; intros [|c s]; simpl; try done.
  by rewrite IH.
Qed.

Lemma substring_from_length e t :
  substring_from (String.length e) (e +:+ t) = t.
Proof. induction e as [|c e IH]; simpl; [by destruct t | done]. Qed.

Lemma IsStringPrefix_weaken r u t :
  IsStringPrefix r u = true → IsStringPrefix r (u +:+ t) = true.
Proof.
  intros [w ->]%IsStringPrefix_inv.
  rewrite append_assoc. apply IsStringPrefix_append.
Qed.

Lemma StringIndexOf_empty r : r ≠ "" → StringIndexOf "" r = None.
Proof. by destruct r. Qed.

(** The text splits at the index [StringIndexOf] finds. *)
Lemma StringIndexOf_decompose s r j :
  StringIndexOf s r = Some j →
  s = substring_to j s +:+ r +:+ substring_from (j + String.length r) s.
Proof.
  revert j. induction s as [|c s IH]; intros j.
  - simpl. destruct r; simpl; [|done]. by intros [= <-].
  - destruct (IsStringPrefix r (String c s)) eqn:E.
    + rewrite (StringIndexOf_head _ _ E). intros [= <-].
      apply IsStringPrefix_inv in E as [t E]. rewrite E. simpl.
      by rewrite substring_from_length.
    + rewrite (StringIndexOf_tail _ _ _ E).
      destruct (StringIndexOf s r) as [j'|] eqn:Hj; [|done].
      intros [= <-]. simpl. f_equal. by apply IH.
Qed.

(** No occurrence of the separator lies before the first one. *)
Lemma StringIndexOf_prefix_free s r j :
  r ≠ "" →
  StringIndexOf s r = Some j →
  String_includes (substring_to j s) r = false.
Proof.
  intros Hr. revert j. induction s as [|c s IH]; intros j Hj.
  - replace (substring_to j "") with "" by by destruct j.
    unfold String_includes. by rewrite StringIndexOf_empty.
  - destruct (IsStringPrefix r (String c s)) eqn:E.
    + rewrite (StringIndexOf_head _ _ E) in Hj. injection Hj as <-.
      simpl. unfold String_includes. by rewrite StringIndexOf_empty.
    + rewrite (StringIndexOf_tail _ _ _ E) in Hj.
      destruct (StringIndexOf s r) as [j'|] eqn:Hj'; [|done].
      injection Hj as <-. simpl substring_to.
      specialize (IH j' eq_refl).
      assert (Hhead : IsStringPrefix r (String c (substring_to j' s)) = false).
      { destruct (IsStringPrefix r (String c (substring_to j' s))) eqn:E';
          [|done].
        apply (IsStringPrefix_weaken _ _ (substring_from j' s)) in E'.
        simpl in E'. rewrite substring_to_from in E'. simpl in E. congruence. }
      unfold String_includes in *.
      rewrite (StringIndexOf_tail _ _ _ Hhead).
      by destruct (StringIndexOf (substring_to j' s) r).
Qed.

Lemma split_loop_None fuel s r :
  StringIndexOf s r = None → split_loop fuel s r = [s].
Proof. intros H. destruct fuel; simpl; by rewrite H. Qed.

Lemma split_loop_Some fuel s r j :
  StringIndexOf s r = Some j →
  split_loop (S fuel) s r
  = substring_to j s
      :: split_loop fuel (substring_from (j + String.length r) s) r.
Proof. intros H. simpl. by rewrite H. Qed.

Lemma split_loop_cons fuel s r : ∃ e l, split_loop fuel s r = e :: l.
Proof.
  destruct fuel; simpl; destruct (StringIndexOf s r); eauto.
Qed.

Lemma Array_join_cons_nonempty e l sep :
  l ≠ [] → Array_join (e :: l) sep = e +:+ sep +:+ Array_join l sep.
Proof. destruct l; [done|]. intros _. apply Array_join_cons. Qed.

Lemma Array_join_split_loop fuel s r :
  r ≠ "" → String.length s ≤ fuel →
  Array_join (split_loop fuel s r) r = s.
Proof.
  intros Hr. revert s. induction fuel as [|fuel IH]; intros s Hfuel.
  - assert (s = "") as -> by (apply length_zero; lia).
    by rewrite split_loop_None by by apply StringIndexOf_empty.
  - simpl. destruct (StringIndexOf s r) as [j|] eqn:Hj; [|done].
    pose proof (StringIndexOf_bound _ _ _ Hj) as Hb.
    assert (0 < String.length r) by (destruct r; simpl; [done | lia]).
    rewrite Array_join_cons_nonempty.
    + rewrite IH by (rewrite length_substring_from; lia).
      symmetry. by apply StringIndexOf_decompose.
    + by destruct (split_loop_cons fuel
                     (substring_from (j + String.length r) s) r)
        as (e & l & ->).
Qed.

Lemma Array_join_code_units s : Array_join (code_units s) "" = s.
Proof.
  induction s as [|c s IH]; [done|]. simpl code_units.
  destruct s as [|d s]; [done|].
  rewrite Array_join_cons_nonempty by done. by rewrite IH.
Qed.

Lemma Array_join_String_split s r : Array_join (String_split s r) r = s.
Proof.
  unfold String_split. destruct r as [|c r].
  - apply Array_join_code_units.
  - by apply Array_join_split_loop.
Qed.

Lemma split_loop_free fuel s r :
  r ≠ "" → String.length s ≤ fuel →
  Forall (λ x, String_includes x r = false) (split_loop fuel s r).
Proof.
  intros Hr. revert s. induction fuel as [|fuel IH]; intros s Hfuel.
  - assert (s = "") as -> by (apply length_zero; lia).
    rewrite split_loop_None by by apply StringIndexOf_empty.
    constructor; [|done]. unfold String_includes.
    by rewrite StringIndexOf_empty.
  - simpl. destruct (StringIndexOf s r) as [j|] eqn:Hj.
    + pose proof (StringIndexOf_bound _ _ _ Hj) as Hb.
      assert (0 < String.length r) by (destruct r; simpl; [done | lia]).
      constructor; [by apply StringIndexOf_prefix_free|].
      apply IH. rewrite length_substring_from. lia.
    + constructor; [|done]. unfold String_includes. by rewrite Hj.
Qed.

Lemma String_split_not_single_empty s r :
  s ≠ "" → String_split s r ≠ [""].
Proof.
  intros Hs. unfold String_split. destruct r as [|c r].
  - destruct s; [done|]. simpl. by intros [= ?].
  - generalize (String c r). intros r'.
    destruct (String.length s) as [|fuel] eqn:Hlen;
      [by apply length_zero in Hlen|].
    destruct (StringIndexOf s r') as [j|] eqn:Hj.
    + rewrite (split_loop_Some _ _ _ _ Hj).
      destruct (split_loop_cons fuel
                  (substring_from (j + String.length r') s) r')
        as (e & l & ->).
      by intros [=].
    + rewrite (split_loop_None _ _ _ Hj). by intros [= ->].
Qed.

Lemma valueAsString_VStrings separator l :
  valueAsString separator (VStrings l) = Some (Array_join l separator).
Proof. done. Qed.

(** X1. Whatever text is typed into a token or multilabel control, and
    whatever the separator, the list the converter stores is displayed as
    that same text again. *)
Theorem valueAsString_splitConverter (separator text : string) :
  valueAsString separator (splitConverter separator text) = Some text.
Proof.
  destruct (decide (text = "")) as [->|Hne].
  - done.
  - rewrite splitConverter_nonempty by done.
    rewrite valueAsString_VStrings. by rewrite Array_join_String_split.
Qed.

(** X2. With a non-empty separator, the list the converter stores never has
    an element containing the separator and is never the one-element list
    holding the empty string, so tokens never contain a space. *)
Theorem splitConverter_elements (separator text : string) :
  separator ≠ "" →
  ∃ l, splitConverter separator text = VStrings l
       ∧ Forall (λ x, String_includes x separator = false) l
       ∧ l ≠ [""]
       ∧ (l = [] ↔ text = "").
Proof.
  intros Hsep. destruct (decide (text = "")) as [->|Hempty].
  - exists []. by repeat split.
  - rewrite splitConverter_nonempty by done.
    exists (String_split text separator). split; [done|]. split; [|split].
    + unfold String_split. destruct separator; [done|].
      by apply split_loop_free.
    + by apply String_split_not_single_empty.
    + split; [|done]. unfold String_split.
      destruct separator as [|a sep']; [done|].
      by destruct (split_loop_cons (String.length text) text (String a sep'))
        as (e & l & ->).
Qed.

Lemma splitConverter_elements_witness :
  ∃ l, splitConverter " " "the  cat" = VStrings l
       ∧ Forall (λ x, String_includes x " " = false) l
       ∧ l ≠ [""]
       ∧ (l = [] ↔ "the  cat" = "").
Proof. apply (splitConverter_elements " " "the  cat"). discriminate. Defined.

End ParseFacts.

(** ** More on the datapoint editor: edits, reset, buttons and keys *)

Module EditorMoreFacts.
Import Types DatapointEditor EditorView EditorFacts.

Lemma allRequiredInputsFilledOut_false c :
  allRequiredInputsFilledOut c = false
  ↔ ∃ k, k ∈ currentModelRequiredInputSpecKeys (appState c)
         ∧ editedData c !! k = Some (VString "").
Proof.
  unfold allRequiredInputsFilledOut.
  rewrite allRequiredInputsFilledOut_loop_false. split.
  - intros (k & _ & Hreq & Hempty). exists k.
    by rewrite <- strict_eq_empty_string_get.
  - intros (k & Hreq & Hempty). exists k.
    rewrite elem_of_Object_keys, strict_eq_empty_string_get. eauto.
Qed.

Lemma handleInputChange_make_disabled key f raw c :
  make_disabled (renderButtons (handleInputChange key f raw c)) = true
  ↔ ∃ k, k ∈ currentModelRequiredInputSpecKeys (appState c)
         ∧ ((k = key ∧ f raw = VString "")
            ∨ (k ≠ key ∧ editedData c !! k = Some (VString ""))).
Proof.
  unfold renderButtons. cbn [make_disabled].
  change (datapointEdited (handleInputChange key f raw c)) with true.
  rewrite andb_true_l, negb_true_iff, allRequiredInputsFilledOut_false.
  cbn [handleInputChange set_draft editedData appState].
  split; intros (k & Hreq & H); exists k; (split; [done|]).
  - destruct (decide (k = key)) as [->|Hne].
    + left. rewrite lookup_insert_eq in H. by injection H as ->.
    + right. by rewrite lookup_insert_ne in H.
  - destruct H as [[-> ->]|[Hne H]].
    + apply lookup_insert_eq.
    + by rewrite lookup_insert_ne.
Qed.

(** X3. An input event marks the draft as modified, stores the converted
    text under the edited field and leaves every other field alone; the
    Reset button is then enabled, and the Add button is disabled exactly
    when a required field holds the empty string afterwards: the edited one
    if the converted text is [''], or another one that already did. *)
Theorem handleInputChange_effect
  (key : string) (f : string → Value) (raw : string) (c : Component) :
  datapointEdited (handleInputChange key f raw c) = true
  ∧ editedData (handleInputChange key f raw c) !! key = Some (f raw)
  ∧ (∀ k, k ≠ key →
       editedData (handleInputChange key f raw c) !! k = editedData c !! k)
  ∧ reset_disabled (renderButtons (handleInputChange key f raw c)) = false
  ∧ (make_disabled (renderButtons (handleInputChange key f raw c)) = true
     ↔ ∃ k, k ∈ currentModelRequiredInputSpecKeys (appState c)
            ∧ ((k = key ∧ f raw = VString "")
               ∨ (k ≠ key ∧ editedData c !! k = Some (VString "")))).
Proof.
  split; [done|]. split; [apply lookup_insert_eq|].
  split; [by intros k Hk; apply lookup_insert_ne|]. split; [done|].
  apply handleInputChange_make_disabled.
Qed.

Lemma converterFn_not_text ToNumber r f raw :
  converterFn ToNumber r = Some f → stores_text r = false →
  f raw ≠ VString "".
Proof.
  destruct r; simpl; intros [= <-] Htext; try done.
  - unfold splitConverter. by destruct (truthy (VString raw)).
  - unfold splitConverter. by destruct (truthy (VString raw)).
Qed.

(** X4. Only the text controls can leave [''] in the draft. A field edited
    through the numeric, token or multilabel control holds a number or an
    array whatever was typed, so emptying such a field, even a required
    one, leaves the Add button enabled when the other required fields are
    filled. *)
Theorem non_text_edit_keeps_add_enabled
  (ToNumber : string → float) (r : InputControl) (f : string → Value)
  (key raw : string) (c : Component) :
  converterFn ToNumber r = Some f →
  stores_text r = false →
  (∀ k, k ∈ currentModelRequiredInputSpecKeys (appState c) → k ≠ key →
        editedData c !! k ≠ Some (VString "")) →
  make_disabled (renderButtons (handleInputChange key f raw c)) = false.
Proof.
  intros Hf Htext Hothers. apply not_true_iff_false.
  intros Hdis. apply handleInputChange_make_disabled in Hdis
    as (k & Hreq & [[-> Hraw]|[Hne Hk]]).
  - by eapply converterFn_not_text.
  - by eapply Hothers.
Qed.

Lemma non_text_edit_keeps_add_enabled_witness :
  make_disabled
    (renderButtons
       (handleInputChange "tokens" (splitConverter " ") ""
          MoreSamples.editor_with_selection))
  = false.
Proof.
  apply (non_text_edit_keeps_add_enabled (λ _, 0%float) TokensInput
           (splitConverter " ") "tokens" "").
  - reflexivity.
  - reflexivity.
  - intros k Hk Hne. apply list_elem_of_singleton in Hk. subst k.
    vm_compute. discriminate.
Defined.

Lemma applyEdits_services edits c :
  appState (applyEdits edits c) = appState c
  ∧ selectionService (applyEdits edits c) = selectionService c
  ∧ groupService (applyEdits edits c) = groupService c.
Proof.
  revert c. induction edits as [|[[key f] raw] edits IH]; intros c; [done|].
  apply (IH (handleInputChange key f raw c)).
Qed.

Lemma resetEditedData_Some defaultValueByField record c :
  resetEditedData defaultValueByField (Some record) c
  = set_draft (delete "__proto__" record) false c.
Proof.
  change (resetEditedData defaultValueByField (Some record) c)
    with (set_draft
            (editedData (resetEditedData defaultValueByField (Some record) c))
            false c).
  by rewrite resetEditedData_record.
Qed.

(** X5. With a record selected, Reset puts the selected record's fields
    back into the draft and clears the modified flag, whatever was edited:
    on a draft that showed the selected record unmodified, any run of input
    events followed by Reset gives the component back as it was. The draft
    shows the record without a field named [__proto__], which no reset
    stores; for a record without such a field that is the record itself. *)
Theorem onClickReset_undoes_edits
  (defaultValueByField : string → gmap string LitType → Value)
  (edits : list (string * (string → Value) * string))
  (selected : IndexedInput) (c : Component) :
  primarySelectedInputData (selectionService c) = Some selected →
  editedData c = delete "__proto__" (data selected) →
  datapointEdited c = false →
  onClickReset defaultValueByField (applyEdits edits c) = Some c
  ∧ (data selected !! "__proto__" = None → editedData c = data selected).
Proof.
  intros Hsel Hdraft Hflag. split.
  - unfold onClickReset.
    destruct (applyEdits_services edits c) as (Happ & Hss & Hgs).
    rewrite Hss, Hsel. f_equal.
    rewrite resetEditedData_Some. unfold set_draft.
    rewrite Happ, Hss, Hgs, <- Hdraft, <- Hflag. by destruct c.
  - intros Hnone. rewrite Hdraft. by apply delete_id.
Qed.

Lemma onClickReset_undoes_edits_witness :
  onClickReset Samples.defaultValueByField_sample
    (applyEdits
       [("sentence", VString, "a dull fil");
        ("tokens", splitConverter " ", "a dull fil");
        ("sentence", VString, "")]
       MoreSamples.editor_with_selection)
  = Some MoreSamples.editor_with_selection
  ∧ (data MoreSamples.selected_record !! "__proto__" = None →
     editedData MoreSamples.editor_with_selection
     = data MoreSamples.selected_record).
Proof.
  apply (onClickReset_undoes_edits Samples.defaultValueByField_sample _
           MoreSamples.selected_record MoreSamples.editor_with_selection).
  - reflexivity.
  - vm_compute. reflexivity.
  - reflexivity.
Defined.

(** A draft that held a field named [__proto__] does not get it back from
    Reset, although the selected record has it. *)
Example onClickReset_proto_record :
  editedData <$> onClickReset Samples.defaultValueByField_sample
                   MoreSamples.editor_with_proto_record
  = Some (delete "__proto__" MoreSamples.proto_record)
  ∧ delete "__proto__" MoreSamples.proto_record ≠ MoreSamples.proto_record.
Proof.
  split.
  - unfold onClickReset. cbn [MoreSamples.editor_with_proto_record
      selectionService primarySelectedInputData data fmap option_fmap
      option_map]. by rewrite resetEditedData_record.
  - intros H. apply (f_equal (λ m, m !! "__proto__")) in H.
    by rewrite lookup_delete_eq in H.
Qed.

(** X6. The Reset button only looks at the modified flag. With nothing
    selected and a modified draft it is enabled, and its handler then reads
    [data] of [null]: a [TypeError]. *)
Theorem onClickReset_without_selection
  (defaultValueByField : string → gmap string LitType → Value)
  (c : Component) :
  datapointEdited c = true →
  primarySelectedInputData (selectionService c) = None →
  reset_disabled (renderButtons c) = false
  ∧ clear_disabled (renderButtons c) = true
  ∧ onClickReset defaultValueByField c = None.
Proof.
  intros Hflag Hsel. unfold renderButtons, onClickReset. simpl.
  by rewrite Hflag, Hsel.
Qed.

Lemma onClickReset_without_selection_witness :
  reset_disabled (renderButtons Samples.editor_without_selection) = false
  ∧ clear_disabled (renderButtons Samples.editor_without_selection) = true
  ∧ onClickReset Samples.defaultValueByField_sample
      Samples.editor_without_selection = None.
Proof.
  apply (onClickReset_without_selection Samples.defaultValueByField_sample
           Samples.editor_without_selection); reflexivity.
Defined.

End EditorMoreFacts.

(** ** More on the datapoint editor: reactions, keyboard and layout data *)

Module EditorViewFacts.
Import Types DatapointEditor EditorView EditorFacts EditorMoreFacts.

Lemma resetEditedData_ext defaultValueByField selectedInputData c1 c2 :
  appState c1 = appState c2 →
  selectionService c1 = selectionService c2 →
  groupService c1 = groupService c2 →
  resetEditedData defaultValueByField selectedInputData c1
  = resetEditedData defaultValueByField selectedInputData c2.
Proof.
  intros Ha Hs Hg. unfold resetEditedData, set_draft.
  by rewrite Ha, Hs, Hg.
Qed.

Lemma onSelectedDataChange_ext defaultValueByField c1 c2 :
  appState c1 = appState c2 →
  selectionService c1 = selectionService c2 →
  groupService c1 = groupService c2 →
  onSelectedDataChange defaultValueByField c1
  = onSelectedDataChange defaultValueByField c2.
Proof.
  intros Ha Hs Hg. unfold onSelectedDataChange. rewrite Hs.
  by apply resetEditedData_ext.
Qed.

(** X7. When the primary selection changes, the draft becomes the selected
    record's fields (a field named [__proto__] apart, which the reset does
    not store) and the Add, Add-and-compare and Reset buttons are disabled
    until the next edit. The reaction discards any edits made before it and
    running it twice is the same as running it once. *)
Theorem onSelectedDataChange_effect
  (defaultValueByField : string → gmap string LitType → Value)
  (c : Component) :
  make_disabled (renderButtons (onSelectedDataChange defaultValueByField c))
  = true
  ∧ compare_disabled
      (renderButtons (onSelectedDataChange defaultValueByField c)) = true
  ∧ reset_disabled
      (renderButtons (onSelectedDataChange defaultValueByField c)) = true
  ∧ (∀ selected,
       primarySelectedInputData (selectionService c) = Some selected →
       editedData (onSelectedDataChange defaultValueByField c)
       = delete "__proto__" (data selected)
       ∧ ∀ key, key ≠ "__proto__" →
           editedData (onSelectedDataChange defaultValueByField c) !! key
           = data selected !! key)
  ∧ (∀ edits,
       onSelectedDataChange defaultValueByField (applyEdits edits c)
       = onSelectedDataChange defaultValueByField c)
  ∧ onSelectedDataChange defaultValueByField
      (onSelectedDataChange defaultValueByField c)
    = onSelectedDataChange defaultValueByField c.
Proof.
  do 3 (split; [done|]). split; [|split].
  - intros selected Hsel. unfold onSelectedDataChange. rewrite Hsel.
    rewrite resetEditedData_record. split; [done|].
    intros key Hkey. by apply lookup_delete_ne.
  - intros edits. destruct (applyEdits_services edits c) as (Ha & Hs & Hg).
    by apply onSelectedDataChange_ext.
  - by apply onSelectedDataChange_ext.
Qed.

(** X9. A keyboard event on an entry makes calls only when it is Enter
    going down while Shift is not held and the Add button is enabled, and
    then exactly the calls of the Add action. Shift is held after a run of
    events exactly when its last Shift event was a key-down; other keys
    leave it as it is. *)
Theorem onKeyboardEvent_enter
  (indexDatapoints : list IndexedInput → list IndexedInput)
  (e : KeyboardEvent) (isShiftPressed : bool) (c : Component) :
  (onKeyboardEvent indexDatapoints e isShiftPressed c).2
  = (if match e with
        | KeyDown key => bool_decide (key = "Enter")
        | KeyUp _ => false
        end
        && negb isShiftPressed
        && negb (make_disabled (renderButtons c))
     then (onClickNew indexDatapoints c).2
     else [])
  ∧ (onKeyboardEvent indexDatapoints e isShiftPressed c).1
    = shift_after [e] isShiftPressed
  ∧ (∀ events init,
       shift_after (events ++ [KeyDown "Shift"]) init = true
       ∧ shift_after (events ++ [KeyUp "Shift"]) init = false
       ∧ ∀ key, key ≠ "Shift" →
           shift_after (events ++ [KeyDown key]) init
           = shift_after events init
           ∧ shift_after (events ++ [KeyUp key]) init
             = shift_after events init).
Proof.
  split; [|split].
  - destruct e as [key|key]; [|done].
    unfold onKeyboardEvent, onKeyDown, click.
    case_bool_decide as Hshift; case_bool_decide as Henter;
      try (by subst key); destruct isShiftPressed;
      by destruct (make_disabled (renderButtons c)).
  - destruct e as [key|key]; [|done].
    unfold onKeyboardEvent, shift_after. cbn [foldl].
    unfold onKeyDown.
    repeat case_bool_decide; by destruct isShiftPressed.
  - intros events init. unfold shift_after. rewrite !foldl_app.
    split; [done|]. split; [done|].
    intros key Hkey. rewrite !foldl_app. cbn [foldl].
    unfold onKeyDown, onKeyUp.
    rewrite !(bool_decide_eq_false_2 (key = "Shift")) by done.
    split; [|done]. case_bool_decide; [|done].
    by destruct (foldl _ init events).
Qed.

Lemma dataTextLengths_keys_elem c key :
  key ∈ dataTextLengths_keys c
  ↔ is_Some (currentDatasetSpec (appState c) !! key)
    ∧ (key ∉ categoricalFeatureNames (groupService c))
    ∧ (key ∉ numericalFeatureNames (groupService c)).
Proof.
  unfold dataTextLengths_keys, currentInputDataKeys.
  rewrite list_elem_of_In, filter_In, <- list_elem_of_In.
  rewrite elem_of_Object_keys, negb_true_iff, orb_false_iff.
  rewrite !bool_decide_eq_false. tauto.
Qed.

Lemma dataTextLengths_lookup d3_quantile c key :
  dataTextLengths d3_quantile c !! key
  = if decide (key ∈ dataTextLengths_keys c ∧ key ≠ "__proto__")
    then Some (default 1%float
                 (d3_quantile
                    (map (λ indexedInput,
                            property_length (data indexedInput) key)
                       (currentInputData (appState c)))
                    percentileForDefault))
    else None.
Proof.
  unfold dataTextLengths.
  rewrite (foldl_plain_object_set_lookup
             (λ key, default 1%float
                (d3_quantile
                   (map (λ indexedInput,
                           property_length (data indexedInput) key)
                      (currentInputData (appState c)))
                   percentileForDefault))).
  by rewrite lookup_empty.
Qed.

(** X10. [dataTextLengths] has an entry exactly for the fields of the
    specification that are neither categorical nor numerical features and
    are not named [__proto__] (the object is filled by assignment). The
    entry is the quantile of the lengths sampled from the records, or 1
    when the quantile is undefined. A record that lacks the field
    contributes no length, unless the field bears the name of a function
    of [Object.prototype], whose [length] is then sampled. *)
Theorem dataTextLengths_entries
  (d3_quantile : list (option nat) → float → option float)
  (c : Component) (key : string) :
  (is_Some (dataTextLengths d3_quantile c !! key)
   ↔ is_Some (currentDatasetSpec (appState c) !! key)
     ∧ (key ∉ categoricalFeatureNames (groupService c))
     ∧ (key ∉ numericalFeatureNames (groupService c))
     ∧ key ≠ "__proto__")
  ∧ (∀ x, dataTextLengths d3_quantile c !! key = Some x →
       x = default 1%float
             (d3_quantile
                (map (λ indexedInput,
                        property_length (data indexedInput) key)
                   (currentInputData (appState c)))
                percentileForDefault))
  ∧ (∀ record, record !! key = None →
       property_length record key = Object_prototype_function_length key)
  ∧ (∀ record v, record !! key = Some v →
       property_length record key = optional_length v).
Proof.
  rewrite dataTextLengths_lookup.
  split; [|split; [|split]].
  - case_decide as Hin.
    + split; [intros _|by eexists]. destruct Hin as [Hk Hp].
      apply dataTextLengths_keys_elem in Hk as (? & ? & ?). done.
    + split; [by intros [? ?]|]. intros (? & ? & ? & ?). destruct Hin.
      split; [|done]. by apply dataTextLengths_keys_elem.
  - case_decide; [by intros x [= <-]|done].
  - intros record Hnone. unfold property_length. by rewrite Hnone.
  - intros record v Hsome. unfold property_length. by rewrite Hsome.
Qed.

(** X11. Every field of the specification that is drawn as a text area has
    an entry in [dataTextLengths], from which its default height is taken,
    unless the field is named [__proto__]. *)
Theorem textarea_has_text_length
  (isLitSubtype : option LitType → list string → bool)
  (d3_quantile : list (option nat) → float → option float)
  (key : string) (c : Component) :
  is_Some (currentDatasetSpec (appState c) !! key) →
  is_textarea (renderInput isLitSubtype key c) = true →
  (key ≠ "__proto__" → is_Some (dataTextLengths d3_quantile c !! key))
  ∧ (key = "__proto__" → dataTextLengths d3_quantile c !! key = None).
Proof.
  intros Hspec Harea. rewrite dataTextLengths_lookup. split.
  - intros Hp. rewrite decide_True; [by eexists|].
    split; [|done]. apply dataTextLengths_keys_elem.
    split; [done|]. unfold renderInput in Harea.
    destruct (currentDatasetSpec (appState c) !! key ≫= vocab); [done|].
    case_bool_decide as Hcat; [done|].
    case_bool_decide as Hnum; [done|]. done.
  - intros Hp. rewrite decide_False; [done|]. by intros [_ ?].
Qed.

Lemma textarea_has_text_length_witness :
  ("sentence" ≠ "__proto__" →
   is_Some
     (dataTextLengths (λ _ _, None) MoreSamples.editor_with_selection
      !! "sentence"))
  ∧ ("sentence" = "__proto__" →
     dataTextLengths (λ _ _, None) MoreSamples.editor_with_selection
     !! "sentence" = None).
Proof.
  apply (textarea_has_text_length Samples.isLitSubtype_by_name (λ _ _, None)
           "sentence" MoreSamples.editor_with_selection).
  - vm_compute. eexists. reflexivity.
  - vm_compute. reflexivity.
Defined.

Example property_length_samples :
  map (property_length (data MoreSamples.selected_record))
    ["sentence"; "tokens"; "missing"; "constructor"; "toString";
     "__proto__"]
  = [Some 11; Some 3; None; Some 1; Some 0; None].
Proof. vm_compute. reflexivity. Qed.

End EditorViewFacts.

(** ** More on the settings dialog *)

Module SettingsMoreFacts.
Import Types GlobalSettings SettingsView SettingsFacts JS JSFacts ParseFacts.

Lemma Map_get_Map_set_eq {V} key (value : V) m :
  Map_get key (Map_set key value m) = Some value.
Proof.
  induction m as [|[k v] m IH]; simpl.
  - by rewrite bool_decide_eq_true_2.
  - case_bool_decide as Hk; simpl.
    + by rewrite bool_decide_eq_true_2.
    + by rewrite bool_decide_eq_false_2.
Qed.

Lemma Map_get_Map_set_ne {V} key (value : V) m k :
  k ≠ key → Map_get k (Map_set key value m) = Map_get k m.
Proof.
  intros Hne. induction m as [|[k' v] m IH]; simpl.
  - by rewrite bool_decide_eq_false_2.
  - case_bool_decide as Hk; simpl.
    + subst k'. by rewrite !bool_decide_eq_false_2.
    + by rewrite IH.
Qed.

Lemma Map_set_keys {V} key (value : V) m :
  (Map_set key value m).*1
  = if bool_decide (key ∈ m.*1) then m.*1 else m.*1 ++ [key].
Proof.
  induction m as [|[k v] m IH].
  - by simpl.
  - cbn [Map_set]. destruct (decide (k = key)) as [->|Hne].
    + rewrite (bool_decide_eq_true_2 (key = key)) by done.
      cbn [fmap list_fmap fst].
      rewrite bool_decide_eq_true_2; [done|]. by left.
    + rewrite (bool_decide_eq_false_2 (k = key)) by done.
      cbn [fmap list_fmap fst]. rewrite IH.
      destruct (decide (key ∈ m.*1)) as [Hin|Hnin].
      * rewrite (bool_decide_eq_true_2 (key ∈ m.*1)) by done.
        rewrite bool_decide_eq_true_2; [done|]. by right.
      * rewrite (bool_decide_eq_false_2 (key ∈ m.*1)) by done.
        rewrite bool_decide_eq_false_2; [done|].
        intros [?|?]%elem_of_cons; [by subst|done].
Qed.

Lemma Map_set_NoDup {V} key (value : V) m :
  NoDup m.*1 → NoDup (Map_set key value m).*1.
Proof.
  intros Hnd. rewrite Map_set_keys. case_bool_decide as Hin; [done|].
  apply NoDup_app. split; [done|]. split; [|apply NoDup_singleton].
  intros x Hx ->%list_elem_of_singleton. done.
Qed.

Lemma Map_get_Some {V} key (v : V) m :
  NoDup m.*1 → Map_get key m = Some v ↔ (key, v) ∈ m.
Proof.
  induction m as [|[k w] m IH]; intros Hnd; simpl.
  - split; [done|]. intros H. by apply elem_of_nil in H.
  - apply NoDup_cons in Hnd as [Hk Hnd]. rewrite elem_of_cons.
    case_bool_decide as Hkey.
    + subst k. split.
      * intros [= ->]. by left.
      * intros [[= ->]|Hin]; [done|].
        destruct Hk. apply list_elem_of_fmap. by exists (key, v).
    + rewrite (IH Hnd). split; [by right|].
      intros [[= -> ->]|?]; done.
Qed.

(** X13. The checkbox map behaves as a map that keeps insertion order:
    reading a key after setting it gives the new value, other keys are not
    affected, a key already present keeps its place and a new one goes to
    the end, and keys stay distinct; with distinct keys a lookup finds
    exactly the entries of the list. *)
Theorem Map_set_laws {V} (key : string) (value : V) (m : list (string * V)) :
  Map_get key (Map_set key value m) = Some value
  ∧ (∀ k, k ≠ key → Map_get k (Map_set key value m) = Map_get k m)
  ∧ (Map_set key value m).*1
    = (if bool_decide (key ∈ m.*1) then m.*1 else m.*1 ++ [key])
  ∧ (NoDup m.*1 →
     NoDup (Map_set key value m).*1
     ∧ ∀ k v, Map_get k m = Some v ↔ (k, v) ∈ m).
Proof.
  split; [apply Map_get_Map_set_eq|].
  split; [by intros k Hk; apply Map_get_Map_set_ne|].
  split; [apply Map_set_keys|].
  intros Hnd. split; [by apply Map_set_NoDup|].
  intros k v. by apply Map_get_Some.
Qed.

Lemma foldl_Map_set {V} (b : V) l (m : list (string * V)) :
  NoDup m.*1 →
  NoDup (foldl (λ m k, Map_set k b m) m l).*1
  ∧ ∀ x v, (x, v) ∈ foldl (λ m k, Map_set k b m) m l
           ↔ (x ∈ l ∧ v = b) ∨ ((x ∉ l) ∧ (x, v) ∈ m).
Proof.
  revert m. induction l as [|k l IH]; intros m Hnd; cbn [foldl].
  - split; [done|]. intros x v. split; [|by intros [[H _]|[_ ?]];
      [apply elem_of_nil in H|]].
    intros H. right. split; [apply not_elem_of_nil|done].
  - destruct (IH (Map_set k b m) (Map_set_NoDup k b m Hnd)) as [Hnd' Hiff].
    split; [done|]. intros x v.
    rewrite Hiff, elem_of_Map_set, elem_of_cons by done.
    destruct (decide (x ∈ l)), (decide (x = k)); tauto.
Qed.

Lemma initializeLocalState_checkboxes c :
  NoDup (modelCheckboxValues (initializeLocalState c)).*1
  ∧ ∀ x v, (x, v) ∈ modelCheckboxValues (initializeLocalState c)
           ↔ (x ∈ currentModels (appState c) ∧ v = true)
             ∨ ((x ∉ currentModels (appState c))
                ∧ x ∈ metadata_models (appState c) ∧ v = false).
Proof.
  unfold initializeLocalState. cbn.
  destruct (foldl_Map_set false (metadata_models (appState c)) [])
    as [Hnd1 Hiff1]; [apply NoDup_nil_2|].
  destruct (foldl_Map_set true (currentModels (appState c)) _ Hnd1)
    as [Hnd2 Hiff2].
  split; [done|]. intros x v. rewrite Hiff2, Hiff1.
  split; [intros [?|[? [?|[_ H]]]]; [tauto|tauto|by apply elem_of_nil in H]
         |tauto].
Qed.

(** X14. Opening the dialog re-seeds the local selection from the
    application state and from nothing else: there is one checkbox for each
    known or current model, the ticked ones are exactly the current models,
    a checkbox is drawn ticked exactly when its model is among the selected
    models, the selected dataset and layout are the current ones, and the
    local selection the dialog held before plays no part. *)
Theorem open_seeds_selection (c : Component) :
  isOpen (open c) = true
  ∧ selectedDataset (open c) = currentDataset (appState c)
  ∧ selectedLayout (open c) = layoutName (appState c)
  ∧ NoDup (modelCheckboxValues (open c)).*1
  ∧ (∀ name, name ∈ (modelCheckboxValues (open c)).*1
             ↔ name ∈ metadata_models (appState c)
               ∨ name ∈ currentModels (appState c))
  ∧ (∀ name, name ∈ selectedModels (open c)
             ↔ name ∈ currentModels (appState c))
  ∧ (∀ name, model_selected name (open c) = true
             ↔ name ∈ selectedModels (open c))
  ∧ (∀ m d l,
       open (set_modelCheckboxValues m
               (set_selectedDataset d (set_selectedLayout l c)))
       = open c).
Proof.
  destruct (initializeLocalState_checkboxes c) as [Hnd Hiff].
  change (modelCheckboxValues (open c))
    with (modelCheckboxValues (initializeLocalState c)).
  do 3 (split; [done|]). split; [done|]. split; [|split; [|split]].
  - intros name. rewrite list_elem_of_fmap. split.
    + intros ([x v] & -> & Hin). apply Hiff in Hin. simpl. tauto.
    + intros H. destruct (decide (name ∈ currentModels (appState c))).
      * exists (name, true). split; [done|]. apply Hiff. tauto.
      * exists (name, false). split; [done|]. apply Hiff. tauto.
  - intros name. unfold selectedModels.
    change (modelCheckboxValues (open c))
      with (modelCheckboxValues (initializeLocalState c)).
    rewrite elem_of_selected, Hiff.
    split; [by intros [[? _]|(_ & _ & ?)] | by left].
  - intros name. unfold selectedModels, model_selected.
    change (modelCheckboxValues (open c))
      with (modelCheckboxValues (initializeLocalState c)).
    rewrite elem_of_selected, <- (Map_get_Some _ _ _ Hnd).
    destruct (Map_get name (modelCheckboxValues (initializeLocalState c)))
      as [[]|]; split; done.
  - done.
Qed.



(** A submitted selection is there at the next opening, a cancelled one is
    not: the dialog of the sample ticks a second model and is then
    submitted, or cancelled. *)
Example submit_or_cancel_sample :
  let ticked :=
    change Samples.isDatasetValidForModels_sample "_union_empty"
      "sst_1" true (open Samples.closed_dialog) in
  selectedModels
    (open (click (renderBottomBar Samples.isDatasetValidForModels_sample
                    ticked)
             (submit_applied MoreSamples.updateSettings_sample) ticked).1)
  = ["sst_0"; "sst_1"]
  ∧ selectedModels (open (cancel ticked).1) = ["sst_0"].
Proof. vm_compute. split; reflexivity. Qed.

(** X16. Cancel makes no call, closes the dialog on the Models tab and
    touches neither the application state nor the local selection; what was
    changed locally before it is gone at the next opening, which shows the
    application's selection again. *)
Theorem cancel_discards_changes
  (isDatasetValidForModels : string → list string → bool)
  (NONE_DS_DICT_KEY : string)
  (changes : list (string * bool)) (dataset : string) (c : Component) :
  (cancel c).2 = []
  ∧ isOpen (cancel c).1 = false
  ∧ selectedTab (cancel c).1 = Models
  ∧ appState (cancel c).1 = appState c
  ∧ modelCheckboxValues (cancel c).1 = modelCheckboxValues c
  ∧ selectedDataset (cancel c).1 = selectedDataset c
  ∧ modelCheckboxValues
      (open (cancel
               (handleDatasetChange dataset
                  (applyChanges isDatasetValidForModels NONE_DS_DICT_KEY
                     changes c))).1)
    = modelCheckboxValues (open c)
  ∧ selectedDataset
      (open (cancel
               (handleDatasetChange dataset
                  (applyChanges isDatasetValidForModels NONE_DS_DICT_KEY
                     changes c))).1)
    = currentDataset (appState c).
Proof.
  do 6 (split; [done|]).
  assert (Happ : appState (applyChanges isDatasetValidForModels
                             NONE_DS_DICT_KEY changes c) = appState c).
  { revert c. induction changes as [|[name checked] changes IH]; intros c;
      [done|].
    cbn [applyChanges foldl]. unfold applyChanges in IH. rewrite IH.
    unfold change. by case_match. }
  unfold open, initializeLocalState. cbn. by rewrite Happ.
Qed.

(** X17. Picking a dataset forgets the typed file path and the status
    line: right after it the save and both load buttons are disabled, and
    the load buttons come back as soon as a non-empty path is typed. *)
Theorem handleDatasetChange_clears_path
  (saveDatapoints : list IndexedInput → string → string → string)
  (name : string) (c : Component) :
  pathForDatapoints (handleDatasetChange name c) = ""
  ∧ datapointsStatus (handleDatasetChange name c) = ""
  ∧ loadDatapointButtonsDisabled (handleDatasetChange name c) = true
  ∧ saveDatapointButtonDisabled (handleDatasetChange name c) = true
  ∧ click (saveDatapointButtonDisabled (handleDatasetChange name c))
      (save saveDatapoints) (handleDatasetChange name c)
    = (handleDatasetChange name c, [])
  ∧ (∀ input_value,
       loadDatapointButtonsDisabled
         (updatePath input_value (handleDatasetChange name c)) = false
       ↔ input_value ≠ "").
Proof.
  do 5 (split; [done|]). intros input_value.
  unfold loadDatapointButtonsDisabled. cbn.
  by rewrite bool_decide_eq_false.
Qed.

(** X18. A click on "Load additional datapoints" does nothing without a
    path. With a path it asks the service once, for the dataset selected in
    the dialog and that path, and commits the answer exactly when it is a
    non-empty list: the application state is then what the commit made of
    it, and otherwise it is untouched. No other call is made, an empty
    list is never committed, and the local selection stays as it is. *)
Theorem load_commits_iff
  (loadDatapoints : string → string → option (list IndexedInput))
  (commitNewDatapoints : list IndexedInput → AppState → AppState)
  (c : Component) :
  (∀ l, CommitNewDatapoints l
        ∈ (click (loadDatapointButtonsDisabled c)
             (load loadDatapoints commitNewDatapoints) c).2
        ↔ pathForDatapoints c ≠ ""
          ∧ loadDatapoints (selectedDataset c) (pathForDatapoints c) = Some l
          ∧ l ≠ [])
  ∧ (click (loadDatapointButtonsDisabled c)
       (load loadDatapoints commitNewDatapoints) c).2
    = (if bool_decide (pathForDatapoints c = "") then []
       else LoadDatapoints (selectedDataset c) (pathForDatapoints c)
            :: match loadDatapoints (selectedDataset c)
                       (pathForDatapoints c) with
               | Some (d :: ds) => [CommitNewDatapoints (d :: ds)]
               | _ => []
               end)
  ∧ appState
      (click (loadDatapointButtonsDisabled c)
         (load loadDatapoints commitNewDatapoints) c).1
    = (if bool_decide (pathForDatapoints c = "") then appState c
       else match loadDatapoints (selectedDataset c)
                    (pathForDatapoints c) with
            | Some (d :: ds) => commitNewDatapoints (d :: ds) (appState c)
            | _ => appState c
            end)
  ∧ selectedDataset
      (click (loadDatapointButtonsDisabled c)
         (load loadDatapoints commitNewDatapoints) c).1
    = selectedDataset c
  ∧ modelCheckboxValues
      (click (loadDatapointButtonsDisabled c)
         (load loadDatapoints commitNewDatapoints) c).1
    = modelCheckboxValues c.
Proof.
  unfold click, loadDatapointButtonsDisabled, load.
  case_bool_decide as Hpath; cbn [fst snd].
  - split; [|done].
    intros l. split; [intros H; by apply elem_of_nil in H|tauto].
  - destruct (loadDatapoints (selectedDataset c) (pathForDatapoints c))
      as [[|d ds]|] eqn:Hload; cbn [fst snd].
    + split; [|done]. intros l. rewrite list_elem_of_singleton.
      split; [done|]. by intros (_ & [= <-] & ?).
    + split; [|done]. intros l. rewrite !elem_of_cons. split.
      * intros [?|[[= ->]|H]]; [done|done|by apply elem_of_nil in H].
      * intros (_ & [= <-] & _). right. by left.
    + split; [|done]. intros l. rewrite list_elem_of_singleton.
      split; [done|]. by intros (_ & [=] & _).
Qed.

(** X19. [toggleInSet] flips the membership of the element, leaves every
    other element alone, and undoes itself when applied twice. *)
Theorem toggleInSet_involutive (set : gset string) (elt : string) :
  toggleInSet (toggleInSet set elt) elt = set
  ∧ (elt ∈ toggleInSet set elt ↔ elt ∉ set)
  ∧ (∀ x, x ≠ elt → x ∈ toggleInSet set elt ↔ x ∈ set).
Proof.
  unfold toggleInSet. destruct (decide (elt ∈ set)) as [Hin|Hnin].
  - rewrite (bool_decide_eq_true_2 (elt ∈ set)) by done.
    assert (Hout : elt ∉ set ∖ {[elt]}).
    { rewrite elem_of_difference, elem_of_singleton. tauto. }
    rewrite (bool_decide_eq_false_2 _ Hout).
    split; [|split].
    + apply set_eq. intros x.
      rewrite elem_of_union, elem_of_difference, elem_of_singleton.
      destruct (decide (x = elt)) as [->|]; tauto.
    + tauto.
    + intros x Hx. rewrite elem_of_difference, elem_of_singleton. tauto.
  - rewrite (bool_decide_eq_false_2 (elt ∈ set)) by done.
    assert (Hnow : elt ∈ set ∪ {[elt]}).
    { rewrite elem_of_union, elem_of_singleton. tauto. }
    rewrite (bool_decide_eq_true_2 _ Hnow).
    split; [|split].
    + apply set_eq. intros x.
      rewrite elem_of_difference, elem_of_union, elem_of_singleton.
      destruct (decide (x = elt)) as [->|]; tauto.
    + tauto.
    + intros x Hx. rewrite elem_of_union, elem_of_singleton. tauto.
Qed.

(** X20. The description preview of a line is always defined: it is the
    text before the first line feed, contains no line feed, and is the
    whole description when that has a single line. *)
Theorem descriptionPreview_first_line (description : string) :
  ∃ preview,
    descriptionPreview description = Some preview
    ∧ String_includes preview newline = false
    ∧ (description = preview
       ∨ ∃ rest, description = preview +:+ newline +:+ rest)
    ∧ (String_includes description newline = false →
       preview = description).
Proof.
  unfold descriptionPreview, String_split. cbn [newline].
  change (String (ascii_of_nat 10) "") with newline.
  destruct (StringIndexOf description newline) as [j|] eqn:Hj.
  - pose proof (StringIndexOf_bound _ _ _ Hj) as Hb.
    destruct (String.length description) as [|fuel] eqn:Hlen;
      [simpl in Hb; lia|].
    rewrite (split_loop_Some _ _ _ _ Hj).
    exists (substring_to j description). split; [done|]. split; [|split].
    + by apply StringIndexOf_prefix_free.
    + right. eexists. by apply StringIndexOf_decompose.
    + unfold String_includes. by rewrite Hj.
  - rewrite (split_loop_None _ _ _ Hj). exists description.
    split; [done|]. split; [|split; [by left|done]].
    unfold String_includes. by rewrite Hj.
Qed.

Lemma applyChanges_sentinel isDatasetValidForModels NONE_DS_DICT_KEY
  changes c :
  selectedDataset c = NONE_DS_DICT_KEY →
  selectedDataset
    (applyChanges isDatasetValidForModels NONE_DS_DICT_KEY changes c)
  = NONE_DS_DICT_KEY.
Proof.
  revert c. induction changes as [|[name checked] changes IH]; intros c Hc;
    [done|].
  cbn [applyChanges foldl]. apply IH.
  unfold change. by case_match.
Qed.

(** X21. The sentinel is sticky: once the dataset selection is the
    sentinel, no run of checkbox changes brings a dataset back, not even
    one that restores the models the former dataset served; only picking a
    dataset or reopening the dialog does. *)
Theorem change_keeps_sentinel
  (isDatasetValidForModels : string → list string → bool)
  (NONE_DS_DICT_KEY : string)
  (changes : list (string * bool)) (c : Component) :
  selectedDataset c = NONE_DS_DICT_KEY →
  selectedDataset
    (applyChanges isDatasetValidForModels NONE_DS_DICT_KEY changes c)
  = NONE_DS_DICT_KEY
  ∧ (∀ name,
       selectedDataset
         (handleDatasetChange name
            (applyChanges isDatasetValidForModels NONE_DS_DICT_KEY
               changes c)) = name)
  ∧ selectedDataset
      (open (applyChanges isDatasetValidForModels NONE_DS_DICT_KEY
               changes c))
    = currentDataset
        (appState (applyChanges isDatasetValidForModels NONE_DS_DICT_KEY
                     changes c)).
Proof.
  intros Hc. split; [by apply applyChanges_sentinel|]. done.
Qed.

Lemma change_keeps_sentinel_witness :
  selectedDataset
    (applyChanges Samples.isDatasetValidForModels_sample "_union_empty"
       [("lm", false)] MoreSamples.dialog_without_dataset)
  = "_union_empty"
  ∧ (∀ name,
       selectedDataset
         (handleDatasetChange name
            (applyChanges Samples.isDatasetValidForModels_sample
               "_union_empty" [("lm", false)]
               MoreSamples.dialog_without_dataset)) = name)
  ∧ selectedDataset
      (open (applyChanges Samples.isDatasetValidForModels_sample
               "_union_empty" [("lm", false)]
               MoreSamples.dialog_without_dataset))
    = currentDataset
        (appState (applyChanges Samples.isDatasetValidForModels_sample
                     "_union_empty" [("lm", false)]
                     MoreSamples.dialog_without_dataset)).
Proof.
  apply (change_keeps_sentinel Samples.isDatasetValidForModels_sample
           "_union_empty" [("lm", false)] MoreSamples.dialog_without_dataset).
  vm_compute. reflexivity.
Defined.

(** X22. After a checkbox change, the radio button of the selected
    dataset is never disabled unless the selection is the sentinel: its
    line reads "Selected" and carries no error mark. *)
Theorem change_selected_dataset_enabled
  (isDatasetValidForModels : string → list string → bool)
  (NONE_DS_DICT_KEY : string)
  (name : string) (checked : bool) (c : Component) :
  selectedDataset
    (change isDatasetValidForModels NONE_DS_DICT_KEY name checked c)
  ≠ NONE_DS_DICT_KEY →
  renderDatasetSelect isDatasetValidForModels
    (selectedDataset
       (change isDatasetValidForModels NONE_DS_DICT_KEY name checked c))
    (change isDatasetValidForModels NONE_DS_DICT_KEY name checked c)
  = (true, false)
  ∧ dataset_status isDatasetValidForModels
      (selectedDataset
         (change isDatasetValidForModels NONE_DS_DICT_KEY name checked c))
      (change isDatasetValidForModels NONE_DS_DICT_KEY name checked c)
    = {| statusIcon := "check_circle"; statusText := "Selected";
         class_selected := true; class_error := false |}.
Proof.
  intros Hne.
  assert (H : renderDatasetSelect isDatasetValidForModels
    (selectedDataset
       (change isDatasetValidForModels NONE_DS_DICT_KEY name checked c))
    (change isDatasetValidForModels NONE_DS_DICT_KEY name checked c)
  = (true, false)).
  { unfold renderDatasetSelect. rewrite bool_decide_eq_true_2 by done.
    f_equal. apply negb_false_iff. revert Hne. unfold change.
    set (c1 := set_modelCheckboxValues _ c).
    destruct (isDatasetValidForModels (selectedDataset c1)
                (selectedModels c1)) eqn:Hvalid; simpl; [done|].
    intros Hne. by destruct Hne. }
  split; [exact H|]. unfold dataset_status. by rewrite H.
Qed.

Lemma change_selected_dataset_enabled_witness :
  renderDatasetSelect Samples.isDatasetValidForModels_sample
    (selectedDataset
       (change Samples.isDatasetValidForModels_sample "_union_empty"
          "sst_1" true (open Samples.closed_dialog)))
    (change Samples.isDatasetValidForModels_sample "_union_empty"
       "sst_1" true (open Samples.closed_dialog))
  = (true, false)
  ∧ dataset_status Samples.isDatasetValidForModels_sample
      (selectedDataset
         (change Samples.isDatasetValidForModels_sample "_union_empty"
            "sst_1" true (open Samples.closed_dialog)))
      (change Samples.isDatasetValidForModels_sample "_union_empty"
         "sst_1" true (open Samples.closed_dialog))
    = {| statusIcon := "check_circle"; statusText := "Selected";
         class_selected := true; class_error := false |}.
Proof.
  apply (change_selected_dataset_enabled
           Samples.isDatasetValidForModels_sample "_union_empty"
           "sst_1" true (open Samples.closed_dialog)).
  vm_compute. discriminate.
Defined.

End SettingsMoreFacts.
